(** * fetch_papers.py: the fetch / filter / render / deliver pipeline

    A shallow embedding of [src/fetch_papers.py].  Python [str] values are
    lists of Unicode code points, [None]-able values are [option]s, raised
    exceptions are the [Raise] branch of [result], and everything the script
    prints, writes or sends is recorded as a list of [Event]s. *)

From Stdlib Require Import ZArith NArith Ascii String List Bool Lia.
From stdpp Require Import base decidable option list gmap.
Import ListNotations.

Local Open Scope Z_scope.

(** ** Text *)

(** A Python [str]: its code points, in order. *)
Abbreviation str := (list N).

(** An ASCII literal as a [str]. *)
Definition lit (s : string) : str := map N_of_ascii (list_ascii_of_string s).

(** [str.isspace] on one code point (the table [str.strip] uses). *)
Definition isspace (c : N) : bool :=
  ((9 <=? c) && (c <=? 13) || (28 <=? c) && (c <=? 32) || (c =? 133)
   || (c =? 160) || (c =? 5760) || (8192 <=? c) && (c <=? 8202)
   || (c =? 8232) || (c =? 8233) || (c =? 8239) || (c =? 8287)
   || (c =? 12288))%N.

Fixpoint lstrip (s : str) : str :=
  match s with
  | c :: s' => if isspace c then lstrip s' else s
  | [] => []
  end.

Definition rstrip (s : str) : str := rev (lstrip (rev s)).

(** [s.strip()] *)
Definition strip (s : str) : str := rstrip (lstrip s).

Definition newline : N := 10.
Definition space : N := 32.

(** [s.replace('\n', ' ')]: the pattern is one character long, so every
    occurrence is one position and the replacement is position-wise. *)
Definition replace_newlines (s : str) : str :=
  map (fun c => if (c =? newline)%N then space else c) s.

(** The normalisation the specification describes for title and summary,
    to compare with [replace_newlines]: a run of consecutive newlines
    becomes a single space.  [in_run] tells that the previous character was
    a newline. *)
Fixpoint collapse_newlines (s : str) (in_run : bool) : str :=
  match s with
  | [] => []
  | c :: s' =>
      if (c =? newline)%N then
        if in_run then collapse_newlines s' true
        else space :: collapse_newlines s' true
      else c :: collapse_newlines s' false
  end.

(** Text that neither starts nor ends with a blank. *)
Definition trimmed (s : str) : Prop :=
  match s with c :: _ => isspace c = false | [] => True end /\
  match rev s with c :: _ => isspace c = false | [] => True end.

(** [sep.join(parts)] on strings. *)
Fixpoint join (sep : str) (parts : list str) : str :=
  match parts with
  | [] => []
  | [p] => p
  | p :: rest => p ++ sep ++ join sep rest
  end.

(** [needle in hay] *)
Fixpoint is_prefix (p s : str) : bool :=
  match p, s with
  | [], _ => true
  | a :: p', b :: s' => (a =? b)%N && is_prefix p' s'
  | _ :: _, [] => false
  end.

Fixpoint contains (hay needle : str) : bool :=
  is_prefix needle hay ||
  match hay with
  | [] => false
  | _ :: hay' => contains hay' needle
  end.

(** Decimal rendering of a non-negative number, left-padded with zeros to
    [width] digits ([%02d] and friends). *)
Fixpoint digits_fuel (fuel : nat) (n : Z) (acc : str) : str :=
  match fuel with
  | O => acc
  | S fuel' =>
      let acc' := Z.to_N (48 + n mod 10) :: acc in
      if n / 10 =? 0 then acc' else digits_fuel fuel' (n / 10) acc'
  end.

Definition decimal (n : Z) : str := digits_fuel (S (Z.to_nat n)) n [].

Definition zero_pad (width : nat) (n : Z) : str :=
  let d := decimal n in
  repeat 48%N (width - length d) ++ d.

(** ** Exceptions and results *)

Inductive exn :=
  | ParseError          (* xml.etree.ElementTree.ParseError *)
  | ValueError
  | TypeError
  | AttributeError
  | OverflowError
  | RequestException    (* raised by requests.get *)
  | OSError.            (* raised by open / write *)

Inductive result (A : Type) :=
  | Ok (a : A)
  | Raise (e : exn).
Arguments Ok {A} a.
Arguments Raise {A} e.

#[global] Instance result_ret : MRet result := fun A a => Ok a.
#[global] Instance result_bind : MBind result := fun A B f m =>
  match m with
  | Ok a => f a
  | Raise e => Raise e
  end.

(** ** XML elements *)

(** An [xml.etree.ElementTree.Element] as far as the script looks at it:
    the qualified tag, the text (which is [None] for an element without
    character data, as in [<title/>]) and the child elements in document
    order. *)
#[warnings="-register-all"]
Inductive Element := mkElement {
  tag : str;
  text : option str;
  children : list Element
}.

(** [ns = {'atom': 'http://www.w3.org/2005/Atom'}]: the path ['atom:x']
    selects the children whose tag is [{http://www.w3.org/2005/Atom}x]. *)
Definition atom (local : string) : str :=
  lit "{http://www.w3.org/2005/Atom}" ++ lit local.

(** [e.findall('atom:x', ns)] *)
Definition findall (e : Element) (local : string) : list Element :=
  filter (fun c => tag c = atom local) (children e).

(** [e.find('atom:x', ns)] *)
Definition find (e : Element) (local : string) : option Element :=
  head (findall e local).

(** ** Dates and times *)

(** A [datetime.datetime] by its fields.  Every datetime the script
    compares carries [tzinfo = timezone.utc], so the zone is not a field. *)
Record datetime := mkDatetime {
  year : Z; month : Z; day : Z;
  hour : Z; minute : Z; second : Z; microsecond : Z
}.

Definition is_leap (y : Z) : bool :=
  (y mod 4 =? 0) && (negb (y mod 100 =? 0) || (y mod 400 =? 0)).

Definition days_in_month_table (m : Z) : Z :=
  nth (Z.to_nat m) [-1; 31; 28; 31; 30; 31; 30; 31; 31; 30; 31; 30; 31] 0.

Definition days_before_month_table (m : Z) : Z :=
  nth (Z.to_nat m) [-1; 0; 31; 59; 90; 120; 151; 181; 212; 243; 273; 304; 334] 0.

Definition days_before_year (y : Z) : Z :=
  let y := y - 1 in y * 365 + y / 4 - y / 100 + y / 400.

Definition days_in_month (y m : Z) : Z :=
  if (m =? 2) && is_leap y then 29 else days_in_month_table m.

Definition days_before_month (y m : Z) : Z :=
  days_before_month_table m + (if (2 <? m) && is_leap y then 1 else 0).

Definition ymd2ord (y m d : Z) : Z :=
  days_before_year y + days_before_month y m + d.

Definition DI400Y : Z := 146097.
Definition DI100Y : Z := 36524.
Definition DI4Y : Z := 1461.
Definition MAXORDINAL : Z := 3652059.

(** [_ord2ymd]: the proleptic Gregorian date of an ordinal. *)
Definition ord2ymd (n : Z) : Z * Z * Z :=
  let n := n - 1 in
  let n400 := n / DI400Y in let n := n mod DI400Y in
  let y := n400 * 400 + 1 in
  let n100 := n / DI100Y in let n := n mod DI100Y in
  let n4 := n / DI4Y in let n := n mod DI4Y in
  let n1 := n / 365 in let n := n mod 365 in
  let y := y + n100 * 100 + n4 * 4 + n1 in
  if (n1 =? 4) || (n100 =? 4) then (y - 1, 12, 31)
  else
    let leapyear := (n1 =? 3) && (negb (n4 =? 24) || (n100 =? 3)) in
    let m := Z.shiftr (n + 50) 5 in
    let preceding :=
      days_before_month_table m + (if (2 <? m) && leapyear then 1 else 0) in
    if n <? preceding then
      let m := m - 1 in
      let preceding :=
        preceding
        - (days_in_month_table m + (if (m =? 2) && leapyear then 1 else 0)) in
      (y, m, n - preceding + 1)
    else (y, m, n - preceding + 1).

Definition toordinal (t : datetime) : Z := ymd2ord (year t) (month t) (day t).

(** [t - datetime.timedelta(days=days)].  [timedelta] refuses more than
    999999999 days either way, and the difference must be a date between
    0001-01-01 and 9999-12-31; the time of day is unchanged. *)
Definition minus_days (t : datetime) (days : Z) : result datetime :=
  if 999999999 <? Z.abs days then Raise OverflowError
  else
    let n := toordinal t - days in
    if (0 <? n) && (n <=? MAXORDINAL) then
      let '(y, m, d) := ord2ymd n in
      Ok (mkDatetime y m d (hour t) (minute t) (second t) (microsecond t))
    else Raise OverflowError.

(** Comparison of two datetimes in the same zone: field by field, most
    significant first. *)
Definition dt_fields (t : datetime) : list Z :=
  [year t; month t; day t; hour t; minute t; second t; microsecond t].

Fixpoint lex_compare (a b : list Z) : comparison :=
  match a, b with
  | x :: a', y :: b' =>
      match x ?= y with
      | Eq => lex_compare a' b'
      | c => c
      end
  | [], [] => Eq
  | [], _ :: _ => Lt
  | _ :: _, [] => Gt
  end.

Definition dt_compare (a b : datetime) : comparison :=
  lex_compare (dt_fields a) (dt_fields b).

(** [a >= b] *)
Definition dt_ge (a b : datetime) : bool :=
  match dt_compare a b with Lt => false | _ => true end.

(** [a < b], as a proposition. *)
Definition dt_before (a b : datetime) : Prop := dt_compare a b = Lt.

(** [t.strftime('%Y-%m-%d')], for years of four digits (below 1000 the
    padding of the year depends on the C library). *)
Definition strftime_iso (t : datetime) : str :=
  zero_pad 4 (year t) ++ lit "-" ++ zero_pad 2 (month t) ++ lit "-"
  ++ zero_pad 2 (day t).

(** [t.strftime('%d/%m/%Y')] *)
Definition strftime_br (t : datetime) : str :=
  zero_pad 2 (day t) ++ lit "/" ++ zero_pad 2 (month t) ++ lit "/"
  ++ zero_pad 4 (year t).

(** [t.strftime('%Y%m%d')] *)
Definition strftime_compact (t : datetime) : str :=
  zero_pad 4 (year t) ++ zero_pad 2 (month t) ++ zero_pad 2 (day t).

(** ** [datetime.strptime(s, '%Y-%m-%dT%H:%M:%SZ')] *)

(** The value of a decimal digit.  The digits are the ASCII ones; CPython
    also takes the other Unicode decimal digits (full-width ones, say) for
    digits, and texts that hold such digits are outside this model. *)
Definition digit (c : N) : option Z :=
  if ((48 <=? c) && (c <=? 57))%N then Some (Z.of_N c - 48) else None.

Definition is_digit (c : N) : bool := bool_decide (is_Some (digit c)).
Definition between (lo hi : string) (c : N) : bool :=
  match lit lo, lit hi with
  | [a], [b] => ((a <=? c) && (c <=? b))%N
  | _, _ => false
  end.
Definition only (ch : string) : N -> bool := between ch ch.

(** The pattern [strptime] compiles the format into is a sequence of
    numeric groups, each an ordered choice of alternatives (an alternative
    is a sequence of character classes), and of literal characters, which
    are matched without regard to case. *)
Inductive item :=
  | Num (alternatives : list (list (N -> bool)))
  | Chr (accepted : list N).

Definition re_Y := Num [[is_digit; is_digit; is_digit; is_digit]].
Definition re_m :=
  Num [[only "1"; between "0" "2"]; [only "0"; between "1" "9"];
       [between "1" "9"]].
Definition re_d :=
  Num [[only "3"; between "0" "1"]; [between "1" "2"; is_digit];
       [only "0"; between "1" "9"]; [between "1" "9"];
       [only " "; between "1" "9"]].
Definition re_H :=
  Num [[only "2"; between "0" "3"]; [between "0" "1"; is_digit]; [is_digit]].
Definition re_M := Num [[between "0" "5"; is_digit]; [is_digit]].
Definition re_S :=
  Num [[only "6"; between "0" "1"]; [between "0" "5"; is_digit]; [is_digit]].

Definition iso_format : list item :=
  [re_Y; Chr (lit "-"); re_m; Chr (lit "-"); re_d; Chr (lit "Tt");
   re_H; Chr (lit ":"); re_M; Chr (lit ":"); re_S; Chr (lit "Zz")].

(** The text one alternative consumes at the head of [s], and what follows. *)
Fixpoint take_classes (classes : list (N -> bool)) (s : str)
  : option (str * str) :=
  match classes, s with
  | [], _ => Some ([], s)
  | cl :: classes', c :: s' =>
      if cl c then
        match take_classes classes' s' with
        | Some (t, r) => Some (c :: t, r)
        | None => None
        end
      else None
  | _ :: _, [] => None
  end.

(** [int] of a group's text (digits, after an optional blank). *)
Definition group_value (t : str) : Z :=
  fold_left (fun acc c => match digit c with Some d => acc * 10 + d | None => acc end)
            t 0.

Fixpoint first_some {A B} (f : A -> option B) (l : list A) : option B :=
  match l with
  | [] => None
  | a :: l' => match f a with Some b => Some b | None => first_some f l' end
  end.

(** Backtracking match of the pattern at the start of [s]: the values of
    the groups and the unconsumed rest. *)
Fixpoint match_items (items : list item) (s : str) : option (list Z * str) :=
  match items with
  | [] => Some ([], s)
  | Num alternatives :: items' =>
      first_some
        (fun classes =>
           match take_classes classes s with
           | Some (t, s') =>
               match match_items items' s' with
               | Some (vs, r) => Some (group_value t :: vs, r)
               | None => None
               end
           | None => None
           end)
        alternatives
  | Chr accepted :: items' =>
      match s with
      | c :: s' => if bool_decide (c ∈ accepted) then match_items items' s' else None
      | [] => None
      end
  end.

(** [strptime]: a [TypeError] for [None]; a [ValueError] when the text does
    not match, when text is left over, when the date does not exist or the
    second is 60 or 61 (which the pattern admits and [datetime] refuses). *)
Definition strptime (data : option str) : result datetime :=
  match data with
  | None => Raise TypeError
  | Some s =>
      match match_items iso_format s with
      | Some ([y; m; d; hh; mm; ss], []) =>
          if (1 <=? y) && (d <=? days_in_month y m) && (ss <=? 59)
          then Ok (mkDatetime y m d hh mm ss 0)
          else Raise ValueError
      | _ => Raise ValueError
      end
  end.

(** ** Feed client *)

(** The dict appended to [papers].  [link] and the members of [authors]
    are [.text] values taken as they are, so they may be [None]. *)
Record Paper := mkPaper {
  title : str;
  summary : str;
  link : option str;
  authors : list (option str);
  published : str
}.

(** "Sem titulo", with U+00ED for the accented i. *)
Definition sem_titulo : str := lit "Sem t" ++ [237%N] ++ lit "tulo".
Definition sem_resumo : str := lit "Sem resumo".

(** [node.text.strip().replace('\n', ' ')]; [None.strip()] is an
    [AttributeError]. *)
Definition clean_text (node : Element) : result str :=
  match text node with
  | Some s => Ok (replace_newlines (strip s))
  | None => Raise AttributeError
  end.

(** The comprehension of line 57. *)
Definition entry_authors (entry : Element) : list (option str) :=
  flat_map (fun author =>
              match find author "name" with
              | Some name => [text name]
              | None => []
              end)
           (findall entry "author").

(** One turn of the loop over the entries: [None] when the turn appends
    nothing, [Some p] when it appends [p]. *)
Definition process_entry (seven_days_ago : datetime) (entry : Element)
  : result (option Paper) :=
  match find entry "published" with
  | None => Ok None
  | Some published_node =>
      published_date ← strptime (text published_node);
      if dt_ge published_date seven_days_ago then
        title ← match find entry "title" with
                | Some title_node => clean_text title_node
                | None => Ok sem_titulo
                end;
        summary ← match find entry "summary" with
                  | Some summary_node => clean_text summary_node
                  | None => Ok sem_resumo
                  end;
        let link := match find entry "id" with
                    | Some link_node => text link_node
                    | None => Some []
                    end in
        Ok (Some (mkPaper title summary link (entry_authors entry)
                          (strftime_iso published_date)))
      else Ok None
  end.

(** The loop of lines 40-65, [papers] being the list built so far. *)
Fixpoint fetch_loop (seven_days_ago : datetime) (entries : list Element)
    (papers : list Paper) : result (list Paper) :=
  match entries with
  | [] => Ok papers
  | entry :: rest =>
      r ← process_entry seven_days_ago entry;
      fetch_loop seven_days_ago rest
                 (match r with Some p => papers ++ [p] | None => papers end)
  end.

(** What one entry contributes to the list [fetch] returns. *)
Definition retained (seven_days_ago : datetime) (entry : Element)
  : list Paper :=
  match process_entry seven_days_ago entry with
  | Ok (Some p) => [p]
  | _ => []
  end.

(** ** Effects *)

(** What a run does to the outside world, in order. *)
Inductive Event :=
  | HttpGet (url : str) (params : list (str * str))
  | Print (line : str)
  | FileWrite (path : str) (data : str)
  | SmtpConnect (host : str) (port : Z)
  | SmtpStartTls
  | SmtpLogin (user password : str)
  | SmtpSend (sender recipient subject body : str)
  | SmtpQuit.

(** The events of the mail transport. *)
Definition is_smtp (e : Event) : bool :=
  match e with
  | SmtpConnect _ _ | SmtpStartTls | SmtpLogin _ _ | SmtpSend _ _ _ _
  | SmtpQuit => true
  | HttpGet _ _ | Print _ | FileWrite _ _ => false
  end.

(** A computation: the events it caused, and its value or the exception
    that ended it. *)
Definition IO (A : Type) : Type := list Event * result A.

#[global] Instance IO_ret : MRet IO := fun A a => ([], Ok a).
#[global] Instance IO_bind : MBind IO := fun A B f m =>
  match m with
  | (t, Ok a) => let '(t', r) := f a in (t ++ t', r)
  | (t, Raise e) => (t, Raise e)
  end.

Definition emit (e : Event) : IO unit := ([e], Ok tt).
Definition lift {A} (r : result A) : IO A := ([], r).

(** The parsed form of a response body: [ET.fromstring] either raises
    [ParseError] or returns the root element. *)
Inductive Body :=
  | Malformed
  | WellFormed (root : Element).

Record Response := mkResponse {
  status_code : Z;
  content : Body
}.

Definition fromstring (b : Body) : result Element :=
  match b with
  | Malformed => Raise ParseError
  | WellFormed root => Ok root
  end.

(** The SMTP calls of [main], in order. *)
Inductive SmtpStep := Connect | StartTls | Login | SendMessage | Quit.
#[global] Instance SmtpStep_eq_dec : EqDecision SmtpStep.
Proof. solve_decision. Defined.

(** What the outside world answers during one run: the clock at each
    reading (lines 19, 38, 74, 93 and 112), the outcome of the HTTP request,
    the environment, whether the report file can be written, and the first
    SMTP call to fail, if any, with the text of its exception. *)
Record World := mkWorld {
  now_limit : datetime;
  now_cutoff : datetime;
  now_report : datetime;
  now_file : datetime;
  now_subject : datetime;
  http : result Response;
  environ : gmap str str;
  disk_error : option exn;
  smtp_error : option (SmtpStep * str)
}.

Definition base_url : str := lit "http://export.arxiv.org/api/query?".

Definition query_params (query : str) : list (str * str) :=
  [(lit "search_query", query); (lit "start", lit "0");
   (lit "max_results", lit "200"); (lit "sortBy", lit "submittedDate");
   (lit "sortOrder", lit "descending")].

(** [fetch_arxiv_papers(query, days)] *)
Definition fetch_arxiv_papers (w : World) (query : str) (days : Z)
  : IO (list Paper) :=
  (* date_limit: computed and formatted, never used *)
  _ ← lift (minus_days (now_limit w) days);
  _ ← emit (HttpGet base_url (query_params query));
  response ← lift (http w);
  if bool_decide (status_code response ≠ 200) then
    _ ← emit (Print (lit "Erro ao acessar ArXiv API: "
                     ++ decimal (status_code response)));
    mret []
  else
    root ← lift (fromstring (content response));
    seven_days_ago ← lift (minus_days (now_cutoff w) days);
    lift (fetch_loop seven_days_ago (findall root "entry") []).

(** ** Report renderer *)

(** What an f-string makes of a [.text] value. *)
Definition format_value (v : option str) : str :=
  match v with
  | Some s => s
  | None => lit "None"
  end.

(** The items handed to [', '.join]: a [None] among them is a
    [TypeError]. *)
Fixpoint join_items (items : list (option str)) : result (list str) :=
  match items with
  | [] => Ok []
  | Some s :: rest => l ← join_items rest; Ok (s :: l)
  | None :: _ => Raise TypeError
  end.

Definition ellipsis : str := lit "...".

Definition title_line (p : Paper) : str :=
  lit "<h3><a href='" ++ format_value (link p) ++ lit "'>" ++ title p
  ++ lit "</a></h3>".

Definition authors_line (names : list str) : str :=
  lit "<p><b>Autores:</b> " ++ join (lit ", ") names ++ lit "</p>".

Definition date_line (p : Paper) : str :=
  lit "<p><b>Data:</b> " ++ published p ++ lit "</p>".

Definition summary_line (p : Paper) : str :=
  lit "<p><b>Resumo:</b> " ++ take 500 (summary p) ++ ellipsis ++ lit "</p>".

(** What one turn of the loop over [papers] adds to [body]. *)
Definition paper_block (p : Paper) : result str :=
  names ← join_items (authors p);
  Ok (title_line p ++ authors_line names ++ date_line p ++ summary_line p
      ++ lit "<hr>").

Fixpoint render_loop (papers : list Paper) (body : str) : result str :=
  match papers with
  | [] => Ok body
  | p :: rest => block ← paper_block p; render_loop rest (body ++ block)
  end.

(** "Nenhum artigo novo encontrado nos ultimos 7 dias sobre
    '3D Print DLP Resin'.", with U+00FA in "ultimos". *)
Definition no_papers : str :=
  lit "Nenhum artigo novo encontrado nos " ++ [250%N]
  ++ lit "ltimos 7 dias sobre '3D Print DLP Resin'.".

(** The heading and the period line (U+00ED, U+00DA, U+00E9 for the
    accented letters). *)
Definition report_header (now : datetime) : str :=
  lit "<h2>Novos Artigos Cient" ++ [237%N]
  ++ lit "ficos: 3D Print DLP Resin</h2>"
  ++ lit "<p>Per" ++ [237%N] ++ lit "odo: " ++ [218%N]
  ++ lit "ltimos 7 dias (at" ++ [233%N] ++ lit " " ++ strftime_br now
  ++ lit ")</p><hr>".

(** [format_email_body(papers)], [now] being the clock at line 74. *)
Definition format_email_body (now : datetime) (papers : list Paper)
  : result str :=
  match papers with
  | [] => Ok no_papers
  | _ :: _ => render_loop papers (report_header now)
  end.

(** The document [format_email_body] returns (empty when it raises). *)
Definition rendered (now : datetime) (papers : list Paper) : str :=
  match format_email_body now papers with
  | Ok doc => doc
  | Raise _ => []
  end.

(** The escaping the specification asks of an implementation that targets
    an HTML context, to compare with what the renderer embeds: [&], [<],
    [>] and both quotes become character references. *)
Definition html_escape (s : str) : str :=
  flat_map (fun c =>
              if (c =? 38)%N then lit "&amp;"
              else if (c =? 60)%N then lit "&lt;"
              else if (c =? 62)%N then lit "&gt;"
              else if (c =? 34)%N then lit "&quot;"
              else if (c =? 39)%N then lit "&#x27;"
              else [c])
           s.

(** ** Delivery coordinator *)

(** [all:"3D Print" AND all:DLP AND all:Resin]; 34 is the double quote. *)
Definition SEARCH_QUERY : str :=
  lit "all:" ++ [34%N] ++ lit "3D Print" ++ [34%N]
  ++ lit " AND all:DLP AND all:Resin".

Definition EMAIL_RECIPIENT : str := lit "marcelo.delguerra@gmail.com".

(** [int(s)] on a [str]: blanks around, an optional sign, then digits with
    single underscores between them, [max_str_digits] digits at most.  Only
    the ASCII digits are counted as digits here. *)
Definition max_str_digits : nat := 4300.

(** The blanks [int] skips around the number: the ASCII ones are tab to
    carriage return and the space, so U+001C to U+001F, which [str.strip]
    removes, are refused by [int]; the others are those of [isspace]. *)
Definition int_space (c : N) : bool :=
  isspace c && negb ((28 <=? c) && (c <=? 31))%N.

Fixpoint int_lstrip (s : str) : str :=
  match s with
  | c :: s' => if int_space c then int_lstrip s' else s
  | [] => []
  end.

Definition int_strip (s : str) : str :=
  rev (int_lstrip (rev (int_lstrip s))).

Fixpoint int_digits (s : str) (after_digit : bool) (acc : Z) (count : nat)
  : option (Z * nat) :=
  match s with
  | [] => if after_digit then Some (acc, count) else None
  | c :: s' =>
      match digit c with
      | Some d => int_digits s' true (acc * 10 + d) (S count)
      | None =>
          if (c =? 95)%N && after_digit then int_digits s' false acc count
          else None
      end
  end.

Definition py_int (s : str) : result Z :=
  let body := int_strip s in
  let '(sign, ds) :=
    match body with
    | 45%N :: ds => (-1, ds)
    | 43%N :: ds => (1, ds)
    | _ => (1, body)
    end in
  match int_digits ds false 0 0 with
  | Some (n, count) =>
      if bool_decide (count ≤ max_str_digits)%nat then Ok (sign * n)
      else Raise ValueError
  | None => Raise ValueError
  end.

(** [os.getenv(name, default)] *)
Definition getenv (w : World) (name : string) : option str :=
  environ w !! lit name.

(** [not v] for a value that is [None] or a [str]. *)
Definition falsy (v : option str) : bool :=
  match v with
  | None | Some [] => true
  | Some (_ :: _) => false
  end.

(** [with open(path, 'w', encoding='utf-8') as f: f.write(data)] *)
Definition write_file (w : World) (path data : str) : IO unit :=
  match disk_error w with
  | Some e => lift (Raise e)
  | None => emit (FileWrite path data)
  end.

Definition smtp_event (step : SmtpStep) (host : str) (port : Z)
    (user password subject body : str) : Event :=
  match step with
  | Connect => SmtpConnect host port
  | StartTls => SmtpStartTls
  | Login => SmtpLogin user password
  | SendMessage => SmtpSend user EMAIL_RECIPIENT subject body
  | Quit => SmtpQuit
  end.

(** The body of the [try]: the calls are made in order up to the first
    one that fails; the handler prints the text of its exception. *)
Fixpoint smtp_session (w : World) (steps : list SmtpStep)
    (call : SmtpStep -> Event) : list Event :=
  match steps with
  | [] => [Print (lit "E-mail enviado com sucesso para " ++ EMAIL_RECIPIENT
                  ++ lit "!")]
  | step :: rest =>
      call step ::
      match smtp_error w with
      | Some (failing, message) =>
          if bool_decide (failing = step)
          then [Print (lit "Erro ao enviar e-mail: " ++ message)]
          else smtp_session w rest call
      | None => smtp_session w rest call
      end
  end.

Definition email_subject (now : datetime) : str :=
  lit "Artigos Cient" ++ [237%N] ++ lit "ficos Semanais: 3D Print DLP Resin ("
  ++ strftime_br now ++ lit ")".

(** "Credenciais SMTP nao configuradas. Pulando envio para ..." with
    U+00E3 in "nao". *)
Definition skipped_message : str :=
  lit "Credenciais SMTP n" ++ [227%N] ++ lit "o configuradas. Pulando envio para "
  ++ EMAIL_RECIPIENT ++ lit ".".

(** The lines [main] prints around the fetch, and the name of the file it
    writes ("Relatorio" has U+00F3). *)
Definition starting_message : str :=
  lit "Iniciando busca de artigos para: " ++ SEARCH_QUERY.
Definition found_message (papers : list Paper) : str :=
  lit "Encontrados " ++ decimal (Z.of_nat (length papers)) ++ lit " artigos.".
Definition output_file (w : World) : str :=
  lit "report_" ++ strftime_compact (now_file w) ++ lit ".html".
Definition report_message (w : World) : str :=
  lit "Relat" ++ [243%N] ++ lit "rio gerado em: " ++ output_file w.

(** [main()] *)
Definition main (w : World) : IO unit :=
  _ ← emit (Print starting_message);
  papers ← fetch_arxiv_papers w SEARCH_QUERY 7;
  _ ← emit (Print (found_message papers));
  email_content ← lift (format_email_body (now_report w) papers);
  _ ← write_file w (output_file w) email_content;
  _ ← emit (Print (report_message w));
  let smtp_server := default (lit "smtp.gmail.com") (getenv w "SMTP_SERVER") in
  smtp_port ← lift (py_int (default (lit "587") (getenv w "SMTP_PORT")));
  let smtp_user := getenv w "SMTP_USER" in
  let smtp_pass := getenv w "SMTP_PASS" in
  if falsy smtp_user || falsy smtp_pass then
    emit (Print skipped_message)
  else
    (smtp_session w [Connect; StartTls; Login; SendMessage; Quit]
       (fun step =>
          smtp_event step smtp_server smtp_port (format_value smtp_user)
                     (format_value smtp_pass) (email_subject (now_subject w))
                     email_content),
     Ok tt).

(** ** Sample data

    The clock reads 2024-03-15 12:00:00 UTC and the window is 7 days, so
    the cutoff is 2024-03-08 12:00:00.  The feed holds entries published
    the same day, three days before, exactly at the cutoff, one second
    before the cutoff, and ten days before. *)

Definition leaf (local content : string) : Element :=
  mkElement (atom local) (Some (lit content)) [].

Definition sample_entry (id published : string) : Element :=
  mkElement (atom "entry") None
    [leaf "id" id; leaf "published" published;
     leaf "title" "  Resin printing
 at scale "; leaf "summary" "We print.";
     mkElement (atom "author") None [leaf "name" "A. Silva"];
     mkElement (atom "author") None [];
     mkElement (atom "author") None [leaf "name" "B. Costa"]].

Definition sample_feed : Element :=
  mkElement (atom "feed") None
    [leaf "title" "ArXiv Query";
     sample_entry "http://arxiv.org/abs/1" "2024-03-15T09:00:00Z";
     sample_entry "http://arxiv.org/abs/2" "2024-03-12T09:00:00Z";
     sample_entry "http://arxiv.org/abs/3" "2024-03-08T12:00:00Z";
     sample_entry "http://arxiv.org/abs/4" "2024-03-08T11:59:59Z";
     sample_entry "http://arxiv.org/abs/5" "2024-03-05T09:00:00Z"].

Definition sample_now : datetime := mkDatetime 2024 3 15 12 0 0 0.
Definition sample_cutoff : datetime := mkDatetime 2024 3 8 12 0 0 0.

Definition sample_world (response : result Response) (env : gmap str str)
  : World :=
  mkWorld sample_now sample_now sample_now sample_now sample_now
          response env None None.

Definition sample_paper (id date : string) : Paper :=
  mkPaper (lit "Resin printing  at scale") (lit "We print.") (Some (lit id))
          [Some (lit "A. Silva"); Some (lit "B. Costa")] (lit date).

Definition sample_papers : list Paper :=
  [sample_paper "http://arxiv.org/abs/1" "2024-03-15";
   sample_paper "http://arxiv.org/abs/2" "2024-03-12";
   sample_paper "http://arxiv.org/abs/3" "2024-03-08"].

(** A feed whose first entry carries a date without a time of day, and
    the same feed without that entry. *)
Definition date_only_entry : Element :=
  mkElement (atom "entry") None
    [leaf "id" "http://arxiv.org/abs/0"; leaf "published" "2024-03-15";
     leaf "title" "Undated"; leaf "summary" "None."].

Definition feed_of (entries : list Element) : Element :=
  mkElement (atom "feed") None entries.

Definition run_fetch (body : Body) : IO (list Paper) :=
  fetch_arxiv_papers (sample_world (Ok (mkResponse 200 body)) ∅) SEARCH_QUERY 7.

(** An entry that has no published element at all. *)
Definition unstamped_entry : Element :=
  mkElement (atom "entry") None
    [leaf "id" "http://arxiv.org/abs/9"; leaf "title" "Unstamped"].

(** The first two entries of the sample feed with [unstamped_entry]
    between them. *)
Definition entry_1 := sample_entry "http://arxiv.org/abs/1" "2024-03-15T09:00:00Z".
Definition entry_2 := sample_entry "http://arxiv.org/abs/2" "2024-03-12T09:00:00Z".
Definition feed_with_unstamped : Element :=
  feed_of [entry_1; unstamped_entry; entry_2].

(** A record whose summary has 600 characters. *)
Definition long_paper : Paper :=
  mkPaper (lit "Long") (repeat 120%N 600) (Some (lit "http://arxiv.org/abs/7"))
          [Some (lit "A. Silva")] (lit "2024-03-15").

(** An entry inside the window with neither title nor summary, whose only
    author has a name element without text ([<name/>]). *)
Definition untitled_entry : Element :=
  mkElement (atom "entry") None
    [leaf "id" "http://arxiv.org/abs/6";
     leaf "published" "2024-03-15T09:00:00Z";
     mkElement (atom "author") None [mkElement (atom "name") None []]].

(** An entry inside the window with a named author followed by an author
    whose name element has no text ([<name/>]). *)
Definition half_named_entry : Element :=
  mkElement (atom "entry") None
    [leaf "id" "http://arxiv.org/abs/6";
     leaf "published" "2024-03-15T09:00:00Z";
     leaf "title" "Resin"; leaf "summary" "We print.";
     mkElement (atom "author") None [leaf "name" "A. Silva"];
     mkElement (atom "author") None [mkElement (atom "name") None []]].

(** The same without the author's name element. *)
Definition anonymous_entry : Element :=
  mkElement (atom "entry") None
    [leaf "id" "http://arxiv.org/abs/6";
     leaf "published" "2024-03-15T09:00:00Z";
     mkElement (atom "author") None []].

Definition anonymous_paper : Paper :=
  mkPaper sem_titulo sem_resumo (Some (lit "http://arxiv.org/abs/6")) []
          (lit "2024-03-15").

(** Entries inside the window whose title, or summary, is an element
    without text ([<title/>], [<summary/>]). *)
Definition empty_title_entry : Element :=
  mkElement (atom "entry") None
    [leaf "published" "2024-03-15T09:00:00Z";
     mkElement (atom "title") None []; leaf "summary" "We print."].

Definition empty_summary_entry : Element :=
  mkElement (atom "entry") None
    [leaf "published" "2024-03-15T09:00:00Z";
     leaf "title" "Resin"; mkElement (atom "summary") None []].

(** An entry inside the window whose title has a blank line in it. *)
Definition two_line_title : str :=
  lit " DLP resins" ++ [newline; newline] ++ lit "a survey ".

Definition blank_line_entry : Element :=
  mkElement (atom "entry") None
    [leaf "published" "2024-03-15T09:00:00Z";
     mkElement (atom "title") (Some two_line_title) [];
     leaf "summary" "We print."].

(** A record whose texts carry markup. *)
Definition markup_paper : Paper :=
  mkPaper (lit "R&D on <i>resins</i>") (lit "if a < b then <script>")
          (Some (lit "http://arxiv.org/abs/8")) [Some (lit "O'Neil & Sons")]
          (lit "2024-03-15").

(** The events of the [try] block of [main] for a document and a port. *)
Definition delivery (w : World) (port : Z) (doc : str) : list Event :=
  smtp_session w [Connect; StartTls; Login; SendMessage; Quit]
    (fun step =>
       smtp_event step (default (lit "smtp.gmail.com") (getenv w "SMTP_SERVER"))
                  port (format_value (getenv w "SMTP_USER"))
                  (format_value (getenv w "SMTP_PASS"))
                  (email_subject (now_subject w)) doc).

Definition success_message : str :=
  lit "E-mail enviado com sucesso para " ++ EMAIL_RECIPIENT ++ lit "!".

(** The sample feed in a run with both credentials set; the mail transport
    fails at [failing], if given. *)
Definition delivery_world (failing : option (SmtpStep * str)) : World :=
  mkWorld sample_now sample_now sample_now sample_now sample_now
          (Ok (mkResponse 200 (WellFormed sample_feed)))
          {[ lit "SMTP_USER" := lit "reports"; lit "SMTP_PASS" := lit "s3cret" ]}
          None failing.

(** The events that write a file. *)
Definition is_file_write (e : Event) : bool :=
  match e with
  | FileWrite _ _ => true
  | _ => false
  end.

(** A run whose request is answered with status 503. *)
Definition unavailable_world : World :=
  sample_world (Ok (mkResponse 503 Malformed)) ∅.

(** * Properties *)

#[global] Arguments lit _ : simpl never.
#[global] Arguments sem_titulo : simpl never.
#[global] Arguments sem_resumo : simpl never.
#[global] Arguments strftime_iso _ : simpl never.

(** ** The result monad and the loop of the feed client *)

Lemma bind_Ok {A B} (m : result A) (f : A -> result B) (b : B) :
  m ≫= f = Ok b -> exists a, m = Ok a /\ f a = Ok b.
Proof. destruct m as [a|e]; [eauto | discriminate]. Qed.

Lemma bind_Raise {A B} (e : exn) (f : A -> result B) : Raise e ≫= f = Raise e.
Proof. reflexivity. Qed.

(** A fetch that returns has processed every entry without an exception,
    and returns the contributions of the entries in feed order. *)
Lemma fetch_loop_Ok cutoff entries : forall acc papers,
  fetch_loop cutoff entries acc = Ok papers ->
  papers = acc ++ flat_map (retained cutoff) entries /\
  Forall (fun e => exists r, process_entry cutoff e = Ok r) entries.
Proof.
  induction entries as [|e es IH]; intros acc papers H; simpl in H.
  - inversion H; subst. rewrite app_nil_r. split; [reflexivity | constructor].
  - apply bind_Ok in H as (r & Hr & H). apply IH in H as [-> Hall].
    split.
    + simpl. unfold retained at 2. rewrite Hr.
      destruct r as [p|]; [rewrite <- app_assoc|]; reflexivity.
    + constructor; eauto.
Qed.

(** The first entry whose turn raises ends the loop with that exception. *)
Lemma fetch_loop_Raise cutoff before entry after ex : forall acc,
  Forall (fun e => exists r, process_entry cutoff e = Ok r) before ->
  process_entry cutoff entry = Raise ex ->
  fetch_loop cutoff (before ++ entry :: after) acc = Raise ex.
Proof.
  induction before as [|e es IH]; intros acc Hall Hbad; simpl.
  - rewrite Hbad. reflexivity.
  - inversion Hall as [|? ? [r Hr] Hes]; subst. rewrite Hr. simpl.
    apply IH; assumption.
Qed.

(** An entry whose turn appends nothing can be dropped from the feed. *)
Lemma fetch_loop_skip cutoff before entry after : forall acc,
  process_entry cutoff entry = Ok None ->
  fetch_loop cutoff (before ++ entry :: after) acc
  = fetch_loop cutoff (before ++ after) acc.
Proof.
  induction before as [|e es IH]; intros acc Hskip; simpl.
  - rewrite Hskip. reflexivity.
  - destruct (process_entry cutoff e) as [r|ex]; simpl; [|reflexivity].
    apply IH; assumption.
Qed.

(** The steps of [fetch_arxiv_papers] on a response with status 200. *)
Lemma fetch_200 w query days limit resp :
  minus_days (now_limit w) days = Ok limit ->
  http w = Ok resp -> status_code resp = 200 ->
  fetch_arxiv_papers w query days
  = ([HttpGet base_url (query_params query)],
     root ← fromstring (content resp);
     seven_days_ago ← minus_days (now_cutoff w) days;
     fetch_loop seven_days_ago (findall root "entry") []).
Proof.
  intros Hlimit Hhttp Hstatus. unfold fetch_arxiv_papers.
  rewrite Hlimit, Hhttp. cbn. rewrite Hstatus. cbn.
  destruct (fromstring (content resp)) as [root|ex]; cbn; [|reflexivity].
  destruct (minus_days (now_cutoff w) days) as [cutoff|ex]; cbn; [|reflexivity].
  destruct (fetch_loop cutoff (findall root "entry") []); reflexivity.
Qed.

(** A fetch that returns a list from a well-formed body with status 200
    got it from the loop over the entries. *)
Lemma fetch_returns w query days resp root cutoff trace papers :
  http w = Ok resp -> status_code resp = 200 ->
  content resp = WellFormed root ->
  minus_days (now_cutoff w) days = Ok cutoff ->
  fetch_arxiv_papers w query days = (trace, Ok papers) ->
  fetch_loop cutoff (findall root "entry") [] = Ok papers.
Proof.
  intros Hhttp Hstatus Hbody Hcut H.
  destruct (minus_days (now_limit w) days) as [limit|ex] eqn:Hlimit.
  - rewrite (fetch_200 _ _ _ _ _ Hlimit Hhttp Hstatus) in H.
    rewrite Hbody, Hcut in H. cbn in H. congruence.
  - unfold fetch_arxiv_papers in H. rewrite Hlimit in H. cbn in H.
    congruence.
Qed.

(** ** Comparison of datetimes *)

Lemma lex_compare_refl l : lex_compare l l = Eq.
Proof. induction l as [|x l IH]; simpl; [|rewrite Z.compare_refl]; auto. Qed.

Lemma dt_compare_refl t : dt_compare t t = Eq.
Proof. apply lex_compare_refl. Qed.

Lemma dt_ge_refl t : dt_ge t t = true.
Proof. unfold dt_ge. rewrite dt_compare_refl. reflexivity. Qed.

Lemma dt_ge_before a b : dt_before a b -> dt_ge a b = false.
Proof. unfold dt_before, dt_ge. intros ->. reflexivity. Qed.

Lemma dt_ge_not_before a b : dt_ge a b = true <-> ~ dt_before a b.
Proof.
  unfold dt_before, dt_ge. destruct (dt_compare a b); split; congruence.
Qed.

Lemma lex_compare_Eq a : forall b, lex_compare a b = Eq -> a = b.
Proof.
  induction a as [|x a IH]; intros [|y b] H; simpl in H; try discriminate.
  - reflexivity.
  - destruct (x ?= y) eqn:Hxy; try discriminate.
    apply Z.compare_eq in Hxy. f_equal; auto.
Qed.

(** Two datetimes compare equal exactly when they are the same instant. *)
Lemma dt_compare_Eq a b : dt_compare a b = Eq <-> a = b.
Proof.
  split; [|intros ->; apply dt_compare_refl].
  intros H. apply lex_compare_Eq in H. destruct a, b. simpl in H.
  inversion H. reflexivity.
Qed.

(** ** One turn of the loop *)

Lemma process_entry_no_published cutoff entry :
  find entry "published" = None -> process_entry cutoff entry = Ok None.
Proof. unfold process_entry. intros ->. reflexivity. Qed.

Lemma process_entry_bad_timestamp cutoff entry node ex :
  find entry "published" = Some node -> strptime (text node) = Raise ex ->
  process_entry cutoff entry = Raise ex.
Proof. unfold process_entry. intros -> ->. reflexivity. Qed.

Lemma process_entry_old cutoff entry node published_date :
  find entry "published" = Some node ->
  strptime (text node) = Ok published_date ->
  dt_before published_date cutoff ->
  process_entry cutoff entry = Ok None.
Proof.
  unfold process_entry. intros -> -> Hold. cbn.
  rewrite (dt_ge_before _ _ Hold). reflexivity.
Qed.

(** A turn that appends a record: where each field comes from. *)
Lemma process_entry_Some cutoff entry p :
  process_entry cutoff entry = Ok (Some p) ->
  exists node published_date,
    find entry "published" = Some node /\
    strptime (text node) = Ok published_date /\
    dt_ge published_date cutoff = true /\
    match find entry "title" with
    | Some n => clean_text n = Ok (title p)
    | None => title p = sem_titulo
    end /\
    match find entry "summary" with
    | Some n => clean_text n = Ok (summary p)
    | None => summary p = sem_resumo
    end /\
    link p = match find entry "id" with Some n => text n | None => Some [] end /\
    authors p = entry_authors entry /\
    published p = strftime_iso published_date.
Proof.
  unfold process_entry. intros H.
  destruct (find entry "published") as [node|]; [|discriminate].
  apply bind_Ok in H as (pd & Hpd & H).
  destruct (dt_ge pd cutoff) eqn:Hge; [|discriminate].
  apply bind_Ok in H as (t & Ht & H). apply bind_Ok in H as (s & Hs & H).
  inversion H; subst p; clear H. exists node, pd.
  cbn [title summary link authors published].
  repeat split; try assumption.
  - revert Ht. destruct (find entry "title"); [auto | congruence].
  - revert Hs. destruct (find entry "summary"); [auto | congruence].
Qed.

(** A turn that ends without an exception on an entry inside the window
    appends a record dated by the entry's timestamp. *)
Lemma process_entry_in_window cutoff entry node published_date r :
  find entry "published" = Some node ->
  strptime (text node) = Ok published_date ->
  dt_ge published_date cutoff = true ->
  process_entry cutoff entry = Ok r ->
  exists p, r = Some p /\ published p = strftime_iso published_date.
Proof.
  unfold process_entry. intros -> -> Hge H. cbn in H. rewrite Hge in H.
  apply bind_Ok in H as (t & Ht & H). apply bind_Ok in H as (s & Hs & H).
  inversion H; subst r. eexists; split; reflexivity.
Qed.

(** ** C1: the recency window *)

(** C1.  When [fetch] returns a list for a well-formed body, that list is
    the concatenation, in feed order, of what each entry contributes; an
    entry whose published timestamp is strictly before the cutoff
    [now(UTC) - days] contributes nothing, and an entry whose timestamp
    equals the cutoff contributes one record (the comparison is inclusive
    at the boundary). *)
Theorem window_filter w query days resp root cutoff trace papers :
  http w = Ok resp -> status_code resp = 200 ->
  content resp = WellFormed root ->
  minus_days (now_cutoff w) days = Ok cutoff ->
  fetch_arxiv_papers w query days = (trace, Ok papers) ->
  papers = flat_map (retained cutoff) (findall root "entry") /\
  forall entry node published_date,
    entry ∈ findall root "entry" ->
    find entry "published" = Some node ->
    strptime (text node) = Ok published_date ->
    (dt_before published_date cutoff -> retained cutoff entry = []) /\
    (published_date = cutoff ->
     exists p, retained cutoff entry = [p] /\
               published p = strftime_iso published_date).
Proof.
  intros Hhttp Hstatus Hbody Hcut H.
  apply (fetch_returns _ _ _ _ _ _ _ _ Hhttp Hstatus Hbody Hcut) in H.
  apply fetch_loop_Ok in H as [Hpapers Hall]. split; [exact Hpapers|].
  intros entry node pd Hin Hnode Hpd. split.
  - intros Hold. unfold retained.
    rewrite (process_entry_old _ _ _ _ Hnode Hpd Hold). reflexivity.
  - intros ->. rewrite Forall_forall in Hall.
    destruct (Hall _ Hin) as [r Hr].
    destruct (process_entry_in_window _ _ _ _ _ Hnode Hpd (dt_ge_refl _) Hr)
      as (p & -> & Hp).
    exists p. unfold retained. rewrite Hr. split; [reflexivity | exact Hp].
Qed.

(** The sample feed: of its five entries the three published on or after
    the cutoff are returned, the one published exactly at the cutoff among
    them. *)
Lemma window_filter_witness :
  sample_papers
  = flat_map (retained sample_cutoff) (findall sample_feed "entry") /\
  forall entry node published_date,
    entry ∈ findall sample_feed "entry" ->
    find entry "published" = Some node ->
    strptime (text node) = Ok published_date ->
    (dt_before published_date sample_cutoff ->
     retained sample_cutoff entry = []) /\
    (published_date = sample_cutoff ->
     exists p, retained sample_cutoff entry = [p] /\
               published p = strftime_iso published_date).
Proof.
  apply (window_filter
           (sample_world (Ok (mkResponse 200 (WellFormed sample_feed))) ∅)
           SEARCH_QUERY 7 (mkResponse 200 (WellFormed sample_feed))
           sample_feed sample_cutoff
           [HttpGet base_url (query_params SEARCH_QUERY)] sample_papers);
    vm_compute; reflexivity.
Defined.

(** Entries dated the same day, three days and ten days before the
    clock, with a window of 7 days: the first two are returned, in that
    order. *)
Example three_entries :
  run_fetch (WellFormed (feed_of
    [entry_1; entry_2;
     sample_entry "http://arxiv.org/abs/5" "2024-03-05T09:00:00Z"]))
  = ([HttpGet base_url (query_params SEARCH_QUERY)],
     Ok [sample_paper "http://arxiv.org/abs/1" "2024-03-15";
         sample_paper "http://arxiv.org/abs/2" "2024-03-12"]).
Proof. vm_compute; reflexivity. Qed.

(** ** C2: entries without a usable timestamp *)

(** A published text that [strptime] rejects: the fetch raises
    [ValueError], although the feed without that entry gives one record. *)
Lemma unparseable_timestamp_aborts :
  strptime (text (leaf "published" "2024-03-15")) = Raise ValueError /\
  run_fetch (WellFormed (feed_of
    [date_only_entry; sample_entry "http://arxiv.org/abs/1" "2024-03-15T09:00:00Z"]))
  = ([HttpGet base_url (query_params SEARCH_QUERY)], Raise ValueError) /\
  run_fetch (WellFormed (feed_of
    [sample_entry "http://arxiv.org/abs/1" "2024-03-15T09:00:00Z"]))
  = ([HttpGet base_url (query_params SEARCH_QUERY)],
     Ok [sample_paper "http://arxiv.org/abs/1" "2024-03-15"]).
Proof. repeat split; vm_compute; reflexivity. Qed.

(** C2, amended.  On a well-formed body with status 200: an entry without
    a published element is skipped silently, the result being that of the
    feed without it; an entry whose published element has no text, or text
    that [strptime] rejects, is not skipped: once the entries before it
    have been processed, the exception of [strptime] ends the fetch. *)
Theorem missing_timestamp_skipped_bad_timestamp_raises
    w query days limit resp root cutoff before entry after :
  minus_days (now_limit w) days = Ok limit ->
  http w = Ok resp -> status_code resp = 200 ->
  content resp = WellFormed root ->
  minus_days (now_cutoff w) days = Ok cutoff ->
  findall root "entry" = before ++ entry :: after ->
  (find entry "published" = None ->
   fetch_arxiv_papers w query days
   = ([HttpGet base_url (query_params query)],
      fetch_loop cutoff (before ++ after) [])) /\
  (forall node ex,
     find entry "published" = Some node ->
     strptime (text node) = Raise ex ->
     Forall (fun e => exists r, process_entry cutoff e = Ok r) before ->
     fetch_arxiv_papers w query days
     = ([HttpGet base_url (query_params query)], Raise ex)).
Proof.
  intros Hlimit Hhttp Hstatus Hbody Hcut Hentries.
  rewrite (fetch_200 _ _ _ _ _ Hlimit Hhttp Hstatus), Hbody. cbn.
  rewrite Hcut. cbn. rewrite Hentries. split.
  - intros Hnone. f_equal. apply fetch_loop_skip.
    apply process_entry_no_published, Hnone.
  - intros node ex Hnode Hbad Hbefore. f_equal.
    apply fetch_loop_Raise; [assumption|].
    exact (process_entry_bad_timestamp _ _ _ _ Hnode Hbad).
Qed.

(** An entry without published element between two entries of the sample
    feed. *)
Lemma missing_timestamp_skipped_bad_timestamp_raises_witness :
  run_fetch (WellFormed feed_with_unstamped)
  = ([HttpGet base_url (query_params SEARCH_QUERY)],
     fetch_loop sample_cutoff ([entry_1] ++ [entry_2]) []).
Proof.
  refine (proj1 (missing_timestamp_skipped_bad_timestamp_raises
                   (sample_world
                      (Ok (mkResponse 200 (WellFormed feed_with_unstamped))) ∅)
                   SEARCH_QUERY 7 sample_cutoff
                   (mkResponse 200 (WellFormed feed_with_unstamped))
                   feed_with_unstamped sample_cutoff
                   [entry_1] unstamped_entry [entry_2] _ _ _ _ _ _) _);
    vm_compute; reflexivity.
Defined.

(** ** C3: a body that is not well-formed *)




(** ** The loop of the renderer *)

(** A rendering that returns is the text built so far followed by the
    blocks of the papers, in order. *)
Lemma render_loop_Ok papers : forall body doc,
  render_loop papers body = Ok doc ->
  exists blocks,
    Forall2 (fun p block => paper_block p = Ok block) papers blocks /\
    doc = body ++ concat blocks.
Proof.
  induction papers as [|p ps IH]; intros body doc H; simpl in H.
  - inversion H; subst. exists []. split; [constructor|].
    simpl. rewrite app_nil_r. reflexivity.
  - apply bind_Ok in H as (block & Hblock & H).
    apply IH in H as (blocks & Hblocks & ->).
    exists (block :: blocks). split; [constructor; assumption|].
    simpl. rewrite <- app_assoc. reflexivity.
Qed.

Lemma paper_block_Ok p block :
  paper_block p = Ok block ->
  exists names,
    join_items (authors p) = Ok names /\
    block = title_line p ++ authors_line names ++ date_line p
            ++ summary_line p ++ lit "<hr>".
Proof.
  unfold paper_block. intros H. apply bind_Ok in H as (names & Hnames & H).
  inversion H. eauto.
Qed.

(** ** C4: the truncation law *)

(** C4.  In a rendered document every paper block ends with the summary
    line, whose content is the first 500 characters of the summary followed
    by the ellipsis marker: exactly 500 characters when the summary is
    longer than 500, the whole summary when it has 500 characters or
    fewer. *)
Theorem truncation_law now papers doc :
  papers <> [] ->
  format_email_body now papers = Ok doc ->
  exists blocks,
    doc = report_header now ++ concat blocks /\
    Forall2
      (fun p block =>
         exists before content,
           block = before ++ lit "<p><b>Resumo:</b> " ++ content ++ ellipsis
                   ++ lit "</p>" ++ lit "<hr>" /\
           content = take 500 (summary p) /\
           (500 < length (summary p) -> length content = 500)%nat /\
           (length (summary p) <= 500 -> content = summary p)%nat)
      papers blocks.
Proof.
  intros Hne H. destruct papers as [|p ps]; [congruence|].
  unfold format_email_body in H.
  apply render_loop_Ok in H as (blocks & Hblocks & ->).
  exists blocks. split; [reflexivity|].
  eapply Forall2_impl; [exact Hblocks|].
  intros q block Hq. apply paper_block_Ok in Hq as (names & _ & ->).
  exists (title_line q ++ authors_line names ++ date_line q), (take 500 (summary q)).
  repeat split.
  - unfold summary_line. rewrite <- !app_assoc. reflexivity.
  - intros Hlong. rewrite length_take. lia.
  - intros Hshort. apply take_ge. lia.
Qed.

(** A summary of 600 characters. *)
Lemma truncation_law_witness :
  exists blocks,
    rendered sample_now [long_paper] = report_header sample_now ++ concat blocks /\
    Forall2
      (fun p block =>
         exists before content,
           block = before ++ lit "<p><b>Resumo:</b> " ++ content ++ ellipsis
                   ++ lit "</p>" ++ lit "<hr>" /\
           content = take 500 (summary p) /\
           (500 < length (summary p) -> length content = 500)%nat /\
           (length (summary p) <= 500 -> content = summary p)%nat)
      [long_paper] blocks.
Proof.
  apply (truncation_law sample_now [long_paper]
           (rendered sample_now [long_paper])).
  - discriminate.
  - vm_compute; reflexivity.
Defined.

(** ** C5: the sentinels for a missing title or summary *)

Lemma join_items_Ok items :
  Forall is_Some items -> exists names, join_items items = Ok names.
Proof.
  induction 1 as [|o items [s ->] _ [names IH]]; simpl.
  - eauto.
  - rewrite IH. simpl. eauto.
Qed.

Lemma join_items_Forall items names :
  join_items items = Ok names -> Forall is_Some items.
Proof.
  revert names. induction items as [|o items IH]; intros names H.
  - constructor.
  - destruct o as [s|]; [|discriminate]. simpl in H.
    apply bind_Ok in H as (l & Hl & _). constructor; eauto.
Qed.

Lemma join_items_Raise items e : join_items items = Raise e -> e = TypeError.
Proof.
  induction items as [|o items IH]; simpl; [discriminate|].
  destruct o as [s|]; [|congruence].
  destruct (join_items items) as [l|e']; simpl; [discriminate|].
  intros H. assert (e' = e) as -> by congruence. apply IH. reflexivity.
Qed.

Lemma join_items_Raise_None items e :
  join_items items = Raise e -> None ∈ items.
Proof.
  induction items as [|o items IH]; simpl; [discriminate|].
  destruct o as [s|]; [|intros _; apply list_elem_of_here].
  destruct (join_items items) as [l|e']; simpl; [discriminate|].
  intros H. apply list_elem_of_further, IH. exact H.
Qed.

(** The rendering of a single record: the authors are joined, and the
    block follows the header. *)
Lemma format_single now p :
  format_email_body now [p]
  = (names ← join_items (authors p);
     Ok (report_header now ++ title_line p ++ authors_line names
         ++ date_line p ++ summary_line p ++ lit "<hr>")).
Proof.
  unfold format_email_body, render_loop, paper_block.
  destruct (join_items (authors p)); reflexivity.
Qed.

Lemma format_one now p names :
  join_items (authors p) = Ok names ->
  format_email_body now [p]
  = Ok (report_header now ++ title_line p ++ authors_line names
        ++ date_line p ++ summary_line p ++ lit "<hr>").
Proof. intros H. rewrite format_single, H. reflexivity. Qed.

Lemma format_single_returns now p :
  (exists doc, format_email_body now [p] = Ok doc)
  <-> Forall is_Some (authors p).
Proof.
  rewrite format_single. split.
  - intros [doc H]. apply bind_Ok in H as (names & Hnames & _).
    exact (join_items_Forall _ _ Hnames).
  - intros H. destruct (join_items_Ok _ H) as [names ->]. simpl. eauto.
Qed.

Lemma format_single_Raise now p e :
  format_email_body now [p] = Raise e -> e = TypeError /\ None ∈ authors p.
Proof.
  rewrite format_single.
  destruct (join_items (authors p)) as [names|e'] eqn:Hj; simpl;
    [discriminate|].
  intros H. assert (e' = e) as -> by congruence.
  split; [exact (join_items_Raise _ _ Hj) | exact (join_items_Raise_None _ _ Hj)].
Qed.

(** C5.  The record emitted for an entry that omits the title element
    (likewise the summary element) carries the sentinel text, which is not
    empty, as its title (summary), and the heading (summary line) of its
    block shows that text.  Rendering such a record does not raise on
    account of the title or the summary: it returns exactly when rendering
    the record with any other title and summary in their place returns, the
    one exception rendering can raise being the [TypeError] of an author
    name that is [None]. *)
Theorem missing_title_gets_sentinel cutoff entry p :
  process_entry cutoff entry = Ok (Some p) ->
  (find entry "title" = None ->
   title p = sem_titulo /\ title p <> [] /\
   title_line p
   = lit "<h3><a href='" ++ format_value (link p) ++ lit "'>" ++ sem_titulo
     ++ lit "</a></h3>") /\
  (find entry "summary" = None ->
   summary p = sem_resumo /\ summary p <> [] /\
   summary_line p
   = lit "<p><b>Resumo:</b> " ++ sem_resumo ++ ellipsis ++ lit "</p>") /\
  (forall now t s,
     (exists doc, format_email_body now [p] = Ok doc)
     <-> exists doc,
           format_email_body now
             [mkPaper t s (link p) (authors p) (published p)]
           = Ok doc) /\
  (forall now e,
     format_email_body now [p] = Raise e -> e = TypeError /\ None ∈ authors p).
Proof.
  intros H.
  apply process_entry_Some in H as (_ & _ & _ & _ & _ & Ht & Hs & _).
  split; [|split; [|split]].
  - intros Hnone. rewrite Hnone in Ht. unfold title_line. rewrite Ht.
    split; [reflexivity|]. split; [discriminate | reflexivity].
  - intros Hnone. rewrite Hnone in Hs. unfold summary_line. rewrite Hs.
    split; [reflexivity|]. split; [discriminate | reflexivity].
  - intros now t s. rewrite !format_single_returns. reflexivity.
  - intros now e. apply format_single_Raise.
Qed.

(** An entry without title, summary and author name. *)
Lemma missing_title_gets_sentinel_witness :
  (find anonymous_entry "title" = None ->
   title anonymous_paper = sem_titulo /\ title anonymous_paper <> [] /\
   title_line anonymous_paper
   = lit "<h3><a href='" ++ format_value (link anonymous_paper) ++ lit "'>"
     ++ sem_titulo ++ lit "</a></h3>") /\
  (find anonymous_entry "summary" = None ->
   summary anonymous_paper = sem_resumo /\ summary anonymous_paper <> [] /\
   summary_line anonymous_paper
   = lit "<p><b>Resumo:</b> " ++ sem_resumo ++ ellipsis ++ lit "</p>") /\
  (forall now t s,
     (exists doc, format_email_body now [anonymous_paper] = Ok doc)
     <-> exists doc,
           format_email_body now
             [mkPaper t s (link anonymous_paper) (authors anonymous_paper)
                      (published anonymous_paper)]
           = Ok doc) /\
  (forall now e,
     format_email_body now [anonymous_paper] = Raise e ->
     e = TypeError /\ None ∈ authors anonymous_paper).
Proof.
  apply (missing_title_gets_sentinel sample_cutoff anonymous_entry
           anonymous_paper).
  vm_compute; reflexivity.
Defined.

(** ** C6: author names *)

Lemma entry_authors_omap entry :
  entry_authors entry
  = omap (fun author => text <$> find author "name") (findall entry "author").
Proof.
  unfold entry_authors. induction (findall entry "author") as [|a l IH].
  - reflexivity.
  - simpl. rewrite IH. destruct (find a "name"); reflexivity.
Qed.

Lemma entry_authors_length entry :
  length (entry_authors entry)
  = length (filter (fun a => is_Some (find a "name")) (findall entry "author")).
Proof.
  unfold entry_authors. induction (findall entry "author") as [|a l IH].
  - reflexivity.
  - simpl. rewrite length_app, IH. destruct (find a "name") as [n|] eqn:Hn.
    + rewrite filter_cons_True by (rewrite Hn; eauto). reflexivity.
    + rewrite filter_cons_False by (rewrite Hn; intros [? ?]; discriminate).
      reflexivity.
Qed.

Lemma entry_authors_none entry :
  Forall (fun a => find a "name" = None) (findall entry "author") ->
  entry_authors entry = [].
Proof.
  unfold entry_authors. induction 1 as [|a l Ha _ IH]; simpl.
  - reflexivity.
  - rewrite Ha, IH. reflexivity.
Qed.

(** The names of the record are all text exactly when every name element of
    the entry's authors has text. *)
Lemma entry_authors_text entry :
  Forall is_Some (entry_authors entry)
  <-> Forall (fun a => forall n, find a "name" = Some n -> is_Some (text n))
             (findall entry "author").
Proof.
  unfold entry_authors. induction (findall entry "author") as [|a l IH]; simpl.
  - split; constructor.
  - rewrite Forall_app, Forall_cons, IH.
    destruct (find a "name") as [n|].
    + rewrite Forall_singleton. split.
      * intros [Hn Hl]. split; [|exact Hl]. intros n' Heq.
        inversion Heq; subst. exact Hn.
      * intros [Hn Hl]. split; [apply Hn; reflexivity | exact Hl].
    + split.
      * intros [_ Hl]. split; [discriminate | exact Hl].
      * intros [_ Hl]. split; [constructor | exact Hl].
Qed.

(** An author whose name element has no text is not omitted: its name is
    [None] in the record, after the name of the author before it, or alone
    in an entry from which no author name can be extracted; rendering the
    record then raises [TypeError]. *)
Lemma nameless_author_not_omitted :
  process_entry sample_cutoff half_named_entry
  = Ok (Some (mkPaper (lit "Resin") (lit "We print.")
                      (Some (lit "http://arxiv.org/abs/6"))
                      [Some (lit "A. Silva"); None] (lit "2024-03-15"))) /\
  process_entry sample_cutoff untitled_entry
  = Ok (Some (mkPaper sem_titulo sem_resumo
                      (Some (lit "http://arxiv.org/abs/6")) [None]
                      (lit "2024-03-15"))) /\
  format_email_body sample_now
    [mkPaper sem_titulo sem_resumo (Some (lit "http://arxiv.org/abs/6"))
             [None] (lit "2024-03-15")]
  = Raise TypeError.
Proof. repeat split; vm_compute; reflexivity. Qed.

(** C6, amended.  The record emitted for an entry lists, in feed order, the
    text of the name element of every author element that has a name
    element; an author element without a name element adds nothing, so the
    list is as long as the number of author elements with a name element.
    An author whose name element has no text is not omitted: its [None] is
    in the list, and rendering the record returns exactly when every name
    element of the entry's authors has text, raising [TypeError]
    otherwise.  When no author element has a name element the list is
    empty, and rendering the record gives an authors line with an empty
    authors string, without raising. *)
Theorem authors_in_feed_order cutoff entry p :
  process_entry cutoff entry = Ok (Some p) ->
  authors p
  = omap (fun author => text <$> find author "name") (findall entry "author") /\
  length (authors p)
  = length (filter (fun a => is_Some (find a "name")) (findall entry "author")) /\
  (forall now,
     (exists doc, format_email_body now [p] = Ok doc)
     <-> Forall (fun a => forall n, find a "name" = Some n -> is_Some (text n))
                (findall entry "author")) /\
  (forall now e, format_email_body now [p] = Raise e -> e = TypeError) /\
  (Forall (fun a => find a "name" = None) (findall entry "author") ->
   authors p = [] /\
   forall now,
     format_email_body now [p]
     = Ok (report_header now ++ title_line p ++ lit "<p><b>Autores:</b> </p>"
           ++ date_line p ++ summary_line p ++ lit "<hr>")).
Proof.
  intros H.
  apply process_entry_Some in H as (_ & _ & _ & _ & _ & _ & _ & _ & Ha & _).
  split; [|split; [|split; [|split]]].
  - rewrite Ha. apply entry_authors_omap.
  - rewrite Ha. apply entry_authors_length.
  - intros now. rewrite format_single_returns, Ha. apply entry_authors_text.
  - intros now e Hraise. exact (proj1 (format_single_Raise _ _ _ Hraise)).
  - intros Hnone. rewrite (entry_authors_none _ Hnone) in Ha.
    split; [exact Ha|]. intros now.
    rewrite (format_one now p []) by (rewrite Ha; reflexivity).
    reflexivity.
Qed.

(** The first entry of the sample feed: three author elements, the second
    without a name element, and the two names in feed order. *)
Lemma authors_in_feed_order_witness :
  authors (sample_paper "http://arxiv.org/abs/1" "2024-03-15")
  = omap (fun author => text <$> find author "name")
         (findall entry_1 "author") /\
  length (authors (sample_paper "http://arxiv.org/abs/1" "2024-03-15"))
  = length (filter (fun a => is_Some (find a "name"))
                   (findall entry_1 "author")) /\
  (forall now,
     (exists doc,
        format_email_body now
          [sample_paper "http://arxiv.org/abs/1" "2024-03-15"] = Ok doc)
     <-> Forall (fun a => forall n, find a "name" = Some n -> is_Some (text n))
                (findall entry_1 "author")) /\
  (forall now e,
     format_email_body now [sample_paper "http://arxiv.org/abs/1" "2024-03-15"]
     = Raise e -> e = TypeError) /\
  (Forall (fun a => find a "name" = None) (findall entry_1 "author") ->
   authors (sample_paper "http://arxiv.org/abs/1" "2024-03-15") = [] /\
   forall now,
     format_email_body now [sample_paper "http://arxiv.org/abs/1" "2024-03-15"]
     = Ok (report_header now
           ++ title_line (sample_paper "http://arxiv.org/abs/1" "2024-03-15")
           ++ lit "<p><b>Autores:</b> </p>"
           ++ date_line (sample_paper "http://arxiv.org/abs/1" "2024-03-15")
           ++ summary_line (sample_paper "http://arxiv.org/abs/1" "2024-03-15")
           ++ lit "<hr>")).
Proof.
  apply (authors_in_feed_order sample_cutoff entry_1
           (sample_paper "http://arxiv.org/abs/1" "2024-03-15")).
  vm_compute; reflexivity.
Defined.

(** ** C10: a title or summary element without text *)

Lemma process_entry_empty_title cutoff entry node published_date title_node :
  find entry "published" = Some node ->
  strptime (text node) = Ok published_date ->
  dt_ge published_date cutoff = true ->
  find entry "title" = Some title_node -> text title_node = None ->
  process_entry cutoff entry = Raise AttributeError.
Proof.
  unfold process_entry, clean_text. intros -> -> Hge -> ->. cbn.
  rewrite Hge. reflexivity.
Qed.

Lemma process_entry_empty_summary
    cutoff entry node published_date title summary_node :
  find entry "published" = Some node ->
  strptime (text node) = Ok published_date ->
  dt_ge published_date cutoff = true ->
  match find entry "title" with
  | Some n => clean_text n
  | None => Ok sem_titulo
  end = Ok title ->
  find entry "summary" = Some summary_node -> text summary_node = None ->
  process_entry cutoff entry = Raise AttributeError.
Proof.
  unfold process_entry. intros -> -> Hge Ht -> Hs. cbn.
  rewrite Hge, Ht. unfold clean_text. rewrite Hs. reflexivity.
Qed.

(** C10.  There are feeds with an entry inside the window whose title
    element (and feeds where the summary element) is present without text
    on which [fetch] raises [AttributeError]; on the same entry with the
    element left out, the sentinel is substituted and [fetch] returns. *)
Theorem empty_element_raises :
  (exists entry node published_date title_node,
     find entry "published" = Some node /\
     strptime (text node) = Ok published_date /\
     dt_ge published_date sample_cutoff = true /\
     find entry "title" = Some title_node /\ text title_node = None /\
     run_fetch (WellFormed (feed_of [entry]))
     = ([HttpGet base_url (query_params SEARCH_QUERY)], Raise AttributeError) /\
     run_fetch (WellFormed (feed_of
       [mkElement (tag entry) (text entry)
          (filter (fun c => tag c <> atom "title") (children entry))]))
     = ([HttpGet base_url (query_params SEARCH_QUERY)],
        Ok [mkPaper sem_titulo (lit "We print.") (Some []) []
                    (lit "2024-03-15")])) /\
  (exists entry node published_date summary_node,
     find entry "published" = Some node /\
     strptime (text node) = Ok published_date /\
     dt_ge published_date sample_cutoff = true /\
     find entry "summary" = Some summary_node /\ text summary_node = None /\
     run_fetch (WellFormed (feed_of [entry]))
     = ([HttpGet base_url (query_params SEARCH_QUERY)], Raise AttributeError) /\
     run_fetch (WellFormed (feed_of
       [mkElement (tag entry) (text entry)
          (filter (fun c => tag c <> atom "summary") (children entry))]))
     = ([HttpGet base_url (query_params SEARCH_QUERY)],
        Ok [mkPaper (lit "Resin") sem_resumo (Some []) []
                    (lit "2024-03-15")])).
Proof.
  split.
  - exists empty_title_entry, (leaf "published" "2024-03-15T09:00:00Z"),
      (mkDatetime 2024 3 15 9 0 0 0), (mkElement (atom "title") None []).
    repeat split; vm_compute; reflexivity.
  - exists empty_summary_entry, (leaf "published" "2024-03-15T09:00:00Z"),
      (mkDatetime 2024 3 15 9 0 0 0), (mkElement (atom "summary") None []).
    repeat split; vm_compute; reflexivity.
Qed.

(** ** C7: normalisation of title and summary *)

Lemma lstrip_head s :
  match lstrip s with c :: _ => isspace c = false | [] => True end.
Proof.
  induction s as [|c s IH]; simpl; [exact I|].
  destruct (isspace c) eqn:Hc; [exact IH | exact Hc].
Qed.

Lemma lstrip_snoc x c :
  isspace c = false -> exists w, lstrip (x ++ [c]) = w ++ [c].
Proof.
  intros Hc. induction x as [|d x [w IH]]; simpl.
  - rewrite Hc. exists []. reflexivity.
  - destruct (isspace d).
    + exists w. exact IH.
    + exists (d :: x). reflexivity.
Qed.

Lemma lstrip_id s :
  match s with c :: _ => isspace c = false | [] => True end -> lstrip s = s.
Proof. destruct s as [|c s]; simpl; [reflexivity | intros ->; reflexivity]. Qed.

Lemma strip_trimmed s : trimmed (strip s).
Proof.
  unfold trimmed, strip, rstrip. rewrite rev_involutive.
  split; [|apply lstrip_head].
  pose proof (lstrip_head s) as Hhead.
  destruct (lstrip s) as [|c u]; [exact I|].
  simpl rev. destruct (lstrip_snoc (rev u) c Hhead) as [w ->].
  rewrite rev_app_distr. exact Hhead.
Qed.

Lemma trimmed_strip s : trimmed s -> strip s = s.
Proof.
  intros [Hhead Hlast]. unfold strip, rstrip.
  rewrite (lstrip_id s Hhead), (lstrip_id (rev s) Hlast).
  apply rev_involutive.
Qed.

Lemma replace_newlines_head c s :
  isspace c = false -> replace_newlines (c :: s) = c :: replace_newlines s.
Proof.
  intros Hc. unfold replace_newlines. simpl.
  destruct (N.eqb_spec c newline) as [->|_]; [discriminate | reflexivity].
Qed.

Lemma replace_newlines_trimmed s : trimmed s -> trimmed (replace_newlines s).
Proof.
  intros [Hhead Hlast]. split.
  - destruct s as [|c s]; [exact I|].
    rewrite (replace_newlines_head _ _ Hhead). exact Hhead.
  - unfold replace_newlines. rewrite <- map_rev.
    destruct (rev s) as [|c u]; [exact I|].
    fold (replace_newlines (c :: u)).
    rewrite (replace_newlines_head _ _ Hlast). exact Hlast.
Qed.

Lemma replace_newlines_no_newline s : newline ∉ replace_newlines s.
Proof.
  induction s as [|c s IH]; simpl.
  - apply not_elem_of_nil.
  - apply not_elem_of_cons. split; [|exact IH].
    destruct (N.eqb_spec c newline); [discriminate | congruence].
Qed.

(** A run of [n] newlines becomes [n] spaces. *)
Lemma replace_newlines_run a n b :
  replace_newlines (a ++ repeat newline n ++ b)
  = replace_newlines a ++ repeat space n ++ replace_newlines b.
Proof.
  unfold replace_newlines. rewrite !map_app. do 2 f_equal.
  induction n as [|n IH]; simpl; [|rewrite IH]; reflexivity.
Qed.

(** What [clean_text] returns for a node with text. *)
Lemma clean_text_Ok node t :
  clean_text node = Ok t ->
  exists s, text node = Some s /\ t = replace_newlines (strip s).
Proof.
  unfold clean_text. destruct (text node) as [s|]; [|discriminate].
  intros H. inversion H. eauto.
Qed.

Lemma clean_text_normal node s t :
  text node = Some s -> clean_text node = Ok t ->
  t = replace_newlines (strip s) /\
  strip t = t /\ (newline ∉ t) /\ length t = length (strip s) /\
  forall a n b, strip s = a ++ repeat newline n ++ b ->
                t = replace_newlines a ++ repeat space n ++ replace_newlines b.
Proof.
  intros Hs Ht. apply clean_text_Ok in Ht as (s' & Hs' & ->).
  assert (s' = s) as -> by congruence.
  split; [reflexivity|]. split; [|split; [|split]].
  - apply trimmed_strip, replace_newlines_trimmed, strip_trimmed.
  - apply replace_newlines_no_newline.
  - unfold replace_newlines. apply length_map.
  - intros a n b ->. apply replace_newlines_run.
Qed.

(** Two consecutive newlines inside a title give two spaces, where
    collapsing the run would give one. *)
Lemma newline_run_not_collapsed :
  process_entry sample_cutoff blank_line_entry
  = Ok (Some (mkPaper (lit "DLP resins  a survey") (lit "We print.") (Some [])
                      [] (lit "2024-03-15"))) /\
  collapse_newlines (strip two_line_title) false = lit "DLP resins a survey" /\
  lit "DLP resins  a survey" <> lit "DLP resins a survey".
Proof.
  split; [|split].
  - vm_compute; reflexivity.
  - vm_compute; reflexivity.
  - discriminate.
Qed.

(** C7, amended.  In the record emitted for an entry whose title element
    (likewise summary element) has text, the title is that text with the
    surrounding blanks trimmed and then every newline replaced by one
    space: it has no blank at either end and no newline, it is as long as
    the trimmed text, and a run of [n] consecutive newlines in the trimmed
    text yields [n] spaces. *)
Theorem title_summary_normalised cutoff entry p :
  process_entry cutoff entry = Ok (Some p) ->
  (forall node s,
     find entry "title" = Some node -> text node = Some s ->
     title p = replace_newlines (strip s) /\
     strip (title p) = title p /\ (newline ∉ title p) /\
     length (title p) = length (strip s) /\
     forall a n b,
       strip s = a ++ repeat newline n ++ b ->
       title p = replace_newlines a ++ repeat space n ++ replace_newlines b) /\
  (forall node s,
     find entry "summary" = Some node -> text node = Some s ->
     summary p = replace_newlines (strip s) /\
     strip (summary p) = summary p /\ (newline ∉ summary p) /\
     length (summary p) = length (strip s) /\
     forall a n b,
       strip s = a ++ repeat newline n ++ b ->
       summary p = replace_newlines a ++ repeat space n ++ replace_newlines b).
Proof.
  intros H.
  apply process_entry_Some in H as (_ & _ & _ & _ & _ & Ht & Hs & _).
  split; intros node s Hnode Htext.
  - rewrite Hnode in Ht. exact (clean_text_normal _ _ _ Htext Ht).
  - rewrite Hnode in Hs. exact (clean_text_normal _ _ _ Htext Hs).
Qed.

(** The entry with the blank line in its title. *)
Lemma title_summary_normalised_witness :
  (forall node s,
     find blank_line_entry "title" = Some node -> text node = Some s ->
     lit "DLP resins  a survey" = replace_newlines (strip s) /\
     strip (lit "DLP resins  a survey") = lit "DLP resins  a survey" /\
     (newline ∉ lit "DLP resins  a survey") /\
     length (lit "DLP resins  a survey") = length (strip s) /\
     forall a n b,
       strip s = a ++ repeat newline n ++ b ->
       lit "DLP resins  a survey"
       = replace_newlines a ++ repeat space n ++ replace_newlines b) /\
  (forall node s,
     find blank_line_entry "summary" = Some node -> text node = Some s ->
     lit "We print." = replace_newlines (strip s) /\
     strip (lit "We print.") = lit "We print." /\
     (newline ∉ lit "We print.") /\
     length (lit "We print.") = length (strip s) /\
     forall a n b,
       strip s = a ++ repeat newline n ++ b ->
       lit "We print."
       = replace_newlines a ++ repeat space n ++ replace_newlines b).
Proof.
  apply (title_summary_normalised sample_cutoff blank_line_entry
           (mkPaper (lit "DLP resins  a survey") (lit "We print.") (Some [])
                    [] (lit "2024-03-15"))).
  vm_compute; reflexivity.
Defined.

(** ** C8: upstream text in the rendered document *)

Lemma is_prefix_app x b : is_prefix x (x ++ b) = true.
Proof. induction x as [|c x IH]; simpl; [|rewrite N.eqb_refl]; auto. Qed.

Lemma contains_prefix hay needle :
  is_prefix needle hay = true -> contains hay needle = true.
Proof. intros H. destruct hay; simpl; rewrite H; reflexivity. Qed.

Lemma contains_app_r a hay needle :
  contains hay needle = true -> contains (a ++ hay) needle = true.
Proof.
  intros H. induction a as [|c a IH]; simpl; [exact H|].
  rewrite IH. apply orb_true_r.
Qed.

(** A text occurs in whatever is built around it. *)
Lemma contains_middle a x b : contains (a ++ x ++ b) x = true.
Proof. apply contains_app_r, contains_prefix, is_prefix_app. Qed.

Lemma contains_occurs a x b s : s = a ++ x ++ b -> contains s x = true.
Proof. intros ->. apply contains_middle. Qed.

Lemma join_elem sep names name :
  name ∈ names -> exists pre post, join sep names = pre ++ name ++ post.
Proof.
  induction names as [|n names IH]; intros Hin.
  - apply elem_of_nil in Hin as [].
  - apply elem_of_cons in Hin as [->|Hin].
    + destruct names as [|m names].
      * exists [], []. simpl. rewrite app_nil_r. reflexivity.
      * exists [], (sep ++ join sep (m :: names)). reflexivity.
    + destruct (IH Hin) as (pre & post & Hj).
      destruct names as [|m names]; [apply elem_of_nil in Hin as []|].
      exists (n ++ sep ++ pre), post.
      change (join sep (n :: m :: names)) with (n ++ sep ++ join sep (m :: names)).
      rewrite Hj, <- !app_assoc. reflexivity.
Qed.

Lemma join_items_elem items names name :
  join_items items = Ok names -> Some name ∈ items -> name ∈ names.
Proof.
  revert names. induction items as [|o items IH]; intros names H Hin.
  - apply elem_of_nil in Hin as [].
  - destruct o as [s|]; [|discriminate]. simpl in H.
    apply bind_Ok in H as (l & Hl & H). inversion H; subst names.
    apply elem_of_cons in Hin as [Heq|Hin].
    + inversion Heq. apply list_elem_of_here.
    + apply list_elem_of_further, IH; assumption.
Qed.

(** A record with markup in its title, summary and author name: the
    document holds the markup as it is and none of its escaped forms. *)
Lemma markup_not_escaped :
  format_email_body sample_now [markup_paper]
  = Ok (rendered sample_now [markup_paper]) /\
  html_escape (title markup_paper) = lit "R&amp;D on &lt;i&gt;resins&lt;/i&gt;" /\
  contains (rendered sample_now [markup_paper])
           (html_escape (title markup_paper)) = false /\
  contains (rendered sample_now [markup_paper]) (lit "&lt;") = false /\
  contains (rendered sample_now [markup_paper]) (lit "&amp;") = false /\
  contains (rendered sample_now [markup_paper]) (lit "&#x27;") = false /\
  contains (rendered sample_now [markup_paper]) (lit "<i>resins</i>") = true /\
  contains (rendered sample_now [markup_paper]) (lit "<script>") = true.
Proof. repeat split; vm_compute; reflexivity. Qed.

(** C8, amended.  The renderer embeds the title, the first 500 characters
    of the summary and every author name in the paper block as they are:
    each occurs in the block unchanged, markup characters included. *)
Theorem upstream_text_verbatim p block :
  paper_block p = Ok block ->
  contains block (title p) = true /\
  contains block (take 500 (summary p)) = true /\
  forall name, Some name ∈ authors p -> contains block name = true.
Proof.
  intros H. apply paper_block_Ok in H as (names & Hnames & ->).
  split; [|split].
  - apply (contains_occurs (lit "<h3><a href='" ++ format_value (link p) ++ lit "'>")
             _ (lit "</a></h3>" ++ authors_line names ++ date_line p
                ++ summary_line p ++ lit "<hr>")).
    unfold title_line. rewrite <- !app_assoc. reflexivity.
  - apply (contains_occurs (title_line p ++ authors_line names ++ date_line p
                            ++ lit "<p><b>Resumo:</b> ")
             _ (ellipsis ++ lit "</p>" ++ lit "<hr>")).
    unfold summary_line. rewrite <- !app_assoc. reflexivity.
  - intros name Hin.
    destruct (join_elem (lit ", ") names name
                (join_items_elem _ _ _ Hnames Hin)) as (pre & post & Hj).
    apply (contains_occurs (title_line p ++ lit "<p><b>Autores:</b> " ++ pre)
             _ (post ++ lit "</p>" ++ date_line p ++ summary_line p
                ++ lit "<hr>")).
    unfold authors_line. rewrite Hj, <- !app_assoc. reflexivity.
Qed.

(** The block of the record with markup. *)
Lemma upstream_text_verbatim_witness :
  contains (title_line markup_paper ++ authors_line [lit "O'Neil & Sons"]
            ++ date_line markup_paper ++ summary_line markup_paper
            ++ lit "<hr>")
           (title markup_paper) = true /\
  contains (title_line markup_paper ++ authors_line [lit "O'Neil & Sons"]
            ++ date_line markup_paper ++ summary_line markup_paper
            ++ lit "<hr>")
           (take 500 (summary markup_paper)) = true /\
  forall name,
    Some name ∈ authors markup_paper ->
    contains (title_line markup_paper ++ authors_line [lit "O'Neil & Sons"]
              ++ date_line markup_paper ++ summary_line markup_paper
              ++ lit "<hr>")
             name = true.
Proof.
  apply (upstream_text_verbatim markup_paper). reflexivity.
Defined.

(** ** C9: a run without transport credentials *)

(** [fetch] causes no event of the mail transport. *)
Lemma fetch_no_smtp w query days :
  Forall (fun e => is_smtp e = false) (fst (fetch_arxiv_papers w query days)).
Proof.
  unfold fetch_arxiv_papers.
  destruct (minus_days (now_limit w) days); cbn; [|constructor].
  destruct (http w) as [resp|]; cbn; [|repeat constructor].
  destruct (bool_decide (status_code resp ≠ 200)); cbn; [repeat constructor|].
  destruct (fromstring (content resp)) as [root|]; cbn; [|repeat constructor].
  destruct (minus_days (now_cutoff w) days) as [cutoff|]; cbn;
    [|repeat constructor].
  destruct (fetch_loop cutoff (findall root "entry") []); repeat constructor.
Qed.

Lemma falsy_absent user pass :
  user = None \/ pass = None -> falsy user || falsy pass = true.
Proof. intros [-> | ->]; [reflexivity|]. apply orb_true_r. Qed.

(** Two runs without credentials.  With [SMTP_PORT] set to a word, [int]
    raises [ValueError] after the file is written and before the
    credentials are looked at; with a malformed body the run ends in the
    fetch, before the file is written. *)
Lemma run_without_credentials_can_raise :
  getenv (sample_world (Ok (mkResponse 200 (WellFormed sample_feed)))
                       {[ lit "SMTP_PORT" := lit "submission" ]})
         "SMTP_USER" = None /\
  main (sample_world (Ok (mkResponse 200 (WellFormed sample_feed)))
                     {[ lit "SMTP_PORT" := lit "submission" ]})
  = ([Print starting_message;
      HttpGet base_url (query_params SEARCH_QUERY);
      Print (found_message sample_papers);
      FileWrite (lit "report_20240315.html") (rendered sample_now sample_papers);
      Print (lit "Relat" ++ [243%N] ++ lit "rio gerado em: report_20240315.html")],
     Raise ValueError) /\
  main (sample_world (Ok (mkResponse 200 Malformed)) ∅)
  = ([Print starting_message; HttpGet base_url (query_params SEARCH_QUERY)],
     Raise ParseError).
Proof. repeat split; vm_compute; reflexivity. Qed.

(** C9, amended.  In a run where the transport username or secret is
    absent, and in which the fetch returns a list, the rendering returns a
    document, the report file can be written and [SMTP_PORT] is unset or
    holds the text of an integer: the coordinator writes the rendered
    document to the report file, prints the delivery-skipped diagnostic,
    causes no event of the mail transport and raises nothing. *)
Theorem credentials_absent_skips_delivery w trace papers doc port :
  getenv w "SMTP_USER" = None \/ getenv w "SMTP_PASS" = None ->
  fetch_arxiv_papers w SEARCH_QUERY 7 = (trace, Ok papers) ->
  format_email_body (now_report w) papers = Ok doc ->
  disk_error w = None ->
  py_int (default (lit "587") (getenv w "SMTP_PORT")) = Ok port ->
  main w
  = (Print starting_message
     :: trace
     ++ [Print (found_message papers); FileWrite (output_file w) doc;
         Print (report_message w); Print skipped_message],
     Ok tt) /\
  Forall (fun e => is_smtp e = false) (fst (main w)).
Proof.
  intros Habsent Hfetch Hdoc Hdisk Hport.
  assert (main w
          = (Print starting_message
             :: trace
             ++ [Print (found_message papers); FileWrite (output_file w) doc;
                 Print (report_message w); Print skipped_message],
             Ok tt)) as Hmain.
  { unfold main, write_file, emit, lift, mbind, IO_bind.
    rewrite Hfetch. cbv beta iota zeta.
    rewrite Hdoc. cbv beta iota zeta.
    rewrite Hdisk. cbv beta iota zeta.
    rewrite Hport. cbv beta iota zeta.
    rewrite (falsy_absent _ _ Habsent). reflexivity. }
  split; [exact Hmain|]. rewrite Hmain. cbn [fst].
  constructor; [reflexivity|]. apply Forall_app. split.
  - pose proof (fetch_no_smtp w SEARCH_QUERY 7) as H.
    rewrite Hfetch in H. exact H.
  - repeat constructor.
Qed.

(** The sample feed with a username and no secret. *)
Lemma credentials_absent_skips_delivery_witness :
  main (sample_world (Ok (mkResponse 200 (WellFormed sample_feed)))
                     {[ lit "SMTP_USER" := lit "reports" ]})
  = (Print starting_message
     :: [HttpGet base_url (query_params SEARCH_QUERY)]
     ++ [Print (found_message sample_papers);
         FileWrite
           (output_file
              (sample_world (Ok (mkResponse 200 (WellFormed sample_feed)))
                            {[ lit "SMTP_USER" := lit "reports" ]}))
           (rendered sample_now sample_papers);
         Print (report_message
                  (sample_world (Ok (mkResponse 200 (WellFormed sample_feed)))
                                {[ lit "SMTP_USER" := lit "reports" ]}));
         Print skipped_message],
     Ok tt) /\
  Forall (fun e => is_smtp e = false)
    (fst (main (sample_world (Ok (mkResponse 200 (WellFormed sample_feed)))
                             {[ lit "SMTP_USER" := lit "reports" ]}))).
Proof.
  apply (credentials_absent_skips_delivery
           (sample_world (Ok (mkResponse 200 (WellFormed sample_feed)))
                         {[ lit "SMTP_USER" := lit "reports" ]})
           [HttpGet base_url (query_params SEARCH_QUERY)] sample_papers
           (rendered sample_now sample_papers) 587).
  - right. vm_compute; reflexivity.
  - vm_compute; reflexivity.
  - vm_compute; reflexivity.
  - reflexivity.
  - vm_compute; reflexivity.
Defined.

(** * Further properties of the renderer *)

Lemma paper_block_Raise p e : paper_block p = Raise e -> e = TypeError.
Proof.
  unfold paper_block.
  destruct (join_items (authors p)) as [names|e'] eqn:Hj; simpl;
    [discriminate|].
  intros H. assert (e' = e) as -> by congruence.
  exact (join_items_Raise _ _ Hj).
Qed.

Lemma render_loop_returns papers : forall body,
  (exists doc, render_loop papers body = Ok doc)
  <-> Forall (fun p => Forall is_Some (authors p)) papers.
Proof.
  induction papers as [|p ps IH]; intros body; simpl.
  - split; [constructor | eauto].
  - split.
    + intros [doc H]. apply bind_Ok in H as (block & Hblock & H).
      constructor; [|apply (IH (body ++ block)); eauto].
      apply paper_block_Ok in Hblock as (names & Hnames & _).
      exact (join_items_Forall _ _ Hnames).
    + intros H. inversion H as [|? ? Hp Hps]; subst.
      destruct (join_items_Ok _ Hp) as [names Hnames].
      unfold paper_block at 1. rewrite Hnames. simpl. apply IH, Hps.
Qed.

Lemma render_loop_Raise papers : forall body e,
  render_loop papers body = Raise e -> e = TypeError.
Proof.
  induction papers as [|p ps IH]; intros body e; simpl; [discriminate|].
  destruct (paper_block p) as [block|e'] eqn:Hp; simpl.
  - apply IH.
  - intros H. assert (e' = e) as -> by congruence.
    exact (paper_block_Raise _ _ Hp).
Qed.

(** The text built so far only prefixes what the loop adds. *)
Lemma render_loop_body papers : forall body,
  render_loop papers body
  = (added ← render_loop papers []; Ok (body ++ added)).
Proof.
  induction papers as [|p ps IH]; intros body; simpl.
  - rewrite app_nil_r. reflexivity.
  - destruct (paper_block p) as [block|e]; simpl; [|reflexivity].
    rewrite (IH (body ++ block)), (IH block).
    destruct (render_loop ps []) as [added|e]; simpl; [|reflexivity].
    rewrite <- app_assoc. reflexivity.
Qed.

Lemma report_header_head now : exists rest, report_header now = 60%N :: rest.
Proof. unfold report_header. eexists. reflexivity. Qed.

(** X1.  [format_email_body] returns the "no new papers" sentence exactly
    when the list of papers is empty: the document of a non-empty list is
    never that sentence. *)
Theorem placeholder_iff_empty now papers :
  format_email_body now papers = Ok no_papers <-> papers = [].
Proof.
  split; [|intros ->; reflexivity].
  destruct papers as [|p ps]; [reflexivity|]. intros H. exfalso.
  unfold format_email_body in H.
  apply render_loop_Ok in H as (blocks & _ & H).
  destruct (report_header_head now) as [rest Hrest]. rewrite Hrest in H.
  discriminate.
Qed.

(** X2.  [format_email_body] returns a document exactly when every author
    name of every paper is text; the only exception it raises is the
    [TypeError] of [', '.join] on a name that is [None]. *)
Theorem rendering_returns_iff_names_are_text now papers :
  ((exists doc, format_email_body now papers = Ok doc)
   <-> Forall (fun p => Forall is_Some (authors p)) papers) /\
  (forall e, format_email_body now papers = Raise e -> e = TypeError).
Proof.
  split.
  - destruct papers as [|p ps].
    + split; [constructor | intros _; eexists; reflexivity].
    + apply render_loop_returns.
  - intros e. destruct papers as [|p ps]; [discriminate|].
    apply render_loop_Raise.
Qed.

(** X3.  The clock reading enters the document of a non-empty list only
    through the header: the document is the header of that reading followed
    by a body computed from the papers alone (and whether rendering raises
    does not depend on the reading). *)
Theorem clock_only_in_header now papers :
  papers <> [] ->
  format_email_body now papers
  = (body ← render_loop papers []; Ok (report_header now ++ body)).
Proof.
  intros Hne. destruct papers as [|p ps]; [congruence|].
  unfold format_email_body. apply render_loop_body.
Qed.

Lemma clock_only_in_header_witness :
  format_email_body sample_now sample_papers
  = (body ← render_loop sample_papers [];
     Ok (report_header sample_now ++ body)).
Proof. apply (clock_only_in_header sample_now sample_papers). discriminate. Defined.

(** * Further properties of the feed client *)

Lemma minus_days_Raise t days e :
  minus_days t days = Raise e -> e = OverflowError.
Proof.
  unfold minus_days. destruct (999999999 <? Z.abs days); [congruence|].
  destruct ((0 <? toordinal t - days) && (toordinal t - days <=? MAXORDINAL));
    [|congruence].
  destruct (ord2ymd (toordinal t - days)) as [[y m] d]. discriminate.
Qed.





(** The steps of [fetch_arxiv_papers] on a status other than 200. *)
Lemma fetch_not_200 w query days limit resp :
  minus_days (now_limit w) days = Ok limit ->
  http w = Ok resp -> status_code resp <> 200 ->
  fetch_arxiv_papers w query days
  = ([HttpGet base_url (query_params query);
      Print (lit "Erro ao acessar ArXiv API: " ++ decimal (status_code resp))],
     Ok []).
Proof.
  intros Hlimit Hhttp Hstatus. unfold fetch_arxiv_papers.
  rewrite Hlimit, Hhttp. cbn.
  rewrite bool_decide_true by assumption. reflexivity.
Qed.

(** X4.  One call of [fetch] performs at most one HTTP request, and that
    request is its first effect, to the fixed URL with the fixed
    parameters (no request at all when the date arithmetic of line 19
    overflows).  Its only other effect is the diagnostic printed for a
    status other than 200. *)
Theorem one_request_per_fetch w query days :
  (fst (fetch_arxiv_papers w query days) = [] /\
   minus_days (now_limit w) days = Raise OverflowError) \/
  (fst (fetch_arxiv_papers w query days)
   = [HttpGet base_url (query_params query)] /\
   forall resp, http w = Ok resp -> status_code resp = 200) \/
  (exists resp,
     http w = Ok resp /\ status_code resp <> 200 /\
     fetch_arxiv_papers w query days
     = ([HttpGet base_url (query_params query);
         Print (lit "Erro ao acessar ArXiv API: "
                ++ decimal (status_code resp))],
        Ok [])).
Proof.
  destruct (minus_days (now_limit w) days) as [limit|e] eqn:Hlimit.
  - right. destruct (http w) as [resp|e] eqn:Hhttp.
    + destruct (decide (status_code resp = 200)) as [Hstatus|Hstatus].
      * left. rewrite (fetch_200 _ _ _ _ _ Hlimit Hhttp Hstatus).
        split; [reflexivity|]. intros resp' H. congruence.
      * right. exists resp. repeat split; try assumption.
        exact (fetch_not_200 _ _ _ _ _ Hlimit Hhttp Hstatus).
    + left. unfold fetch_arxiv_papers. rewrite Hlimit, Hhttp.
      split; [reflexivity | discriminate].
  - left. rewrite (minus_days_Raise _ _ _ Hlimit) in *.
    unfold fetch_arxiv_papers. rewrite Hlimit. split; reflexivity.
Qed.



(** X6.  Every record [fetch] returns was made from an entry of the feed
    whose published timestamp parses and is not before the cutoff, and its
    date is that timestamp's date; no entry yields more than one record, so
    the list is no longer than the feed. *)
Theorem records_come_from_window w query days resp root cutoff trace papers :
  http w = Ok resp -> status_code resp = 200 ->
  content resp = WellFormed root ->
  minus_days (now_cutoff w) days = Ok cutoff ->
  fetch_arxiv_papers w query days = (trace, Ok papers) ->
  (forall p, p ∈ papers ->
     exists entry node published_date,
       entry ∈ findall root "entry" /\
       find entry "published" = Some node /\
       strptime (text node) = Ok published_date /\
       ~ dt_before published_date cutoff /\
       published p = strftime_iso published_date) /\
  (length papers <= length (findall root "entry"))%nat.
Proof.
  intros Hhttp Hstatus Hbody Hcut H.
  apply (fetch_returns _ _ _ _ _ _ _ _ Hhttp Hstatus Hbody Hcut) in H.
  apply fetch_loop_Ok in H as [-> _]. simpl. split.
  - intros p Hp. apply list_elem_of_In, in_flat_map in Hp as (entry & Hin & Hp).
    apply list_elem_of_In in Hin. unfold retained in Hp.
    destruct (process_entry cutoff entry) as [[q|]|] eqn:Hq;
      try (apply list_elem_of_In, elem_of_nil in Hp as []).
    apply list_elem_of_In, list_elem_of_singleton in Hp as ->.
    apply process_entry_Some in Hq
      as (node & pd & Hnode & Hpd & Hge & _ & _ & _ & _ & Hdate).
    exists entry, node, pd. repeat split; try assumption.
    apply dt_ge_not_before, Hge.
  - induction (findall root "entry") as [|en es IH]; simpl; [lia|].
    rewrite length_app. unfold retained at 1.
    destruct (process_entry cutoff en) as [[q|]|]; simpl; lia.
Qed.

Lemma records_come_from_window_witness :
  (forall p, p ∈ sample_papers ->
     exists entry node published_date,
       entry ∈ findall sample_feed "entry" /\
       find entry "published" = Some node /\
       strptime (text node) = Ok published_date /\
       ~ dt_before published_date sample_cutoff /\
       published p = strftime_iso published_date) /\
  (length sample_papers <= length (findall sample_feed "entry"))%nat.
Proof.
  apply (records_come_from_window
           (sample_world (Ok (mkResponse 200 (WellFormed sample_feed))) ∅)
           SEARCH_QUERY 7 (mkResponse 200 (WellFormed sample_feed))
           sample_feed sample_cutoff
           [HttpGet base_url (query_params SEARCH_QUERY)] sample_papers);
    vm_compute; reflexivity.
Defined.

Lemma lex_ge_trans a : forall b c,
  lex_compare a b <> Lt -> lex_compare b c <> Lt -> lex_compare a c <> Lt.
Proof.
  induction a as [|x a IH]; intros [|y b] [|z c]; simpl; try congruence.
  destruct (Z.compare_spec x y), (Z.compare_spec y z), (Z.compare_spec x z);
    subst; try lia; try congruence; eauto.
Qed.

Lemma dt_ge_trans a b c :
  dt_ge a b = true -> dt_ge b c = true -> dt_ge a c = true.
Proof.
  unfold dt_ge, dt_compare. intros Hab Hbc.
  pose proof (lex_ge_trans (dt_fields a) (dt_fields b) (dt_fields c)) as H.
  destruct (lex_compare (dt_fields a) (dt_fields b)); try discriminate;
    destruct (lex_compare (dt_fields b) (dt_fields c)); try discriminate;
    destruct (lex_compare (dt_fields a) (dt_fields c)); try reflexivity;
    exfalso; apply H; congruence.
Qed.

(** With an earlier cutoff, a turn that ends without an exception appends
    the record it appended with the later one. *)
Lemma process_entry_wider later earlier entry r r' :
  dt_ge later earlier = true ->
  process_entry later entry = Ok r -> process_entry earlier entry = Ok r' ->
  r = None \/ r = r'.
Proof.
  unfold process_entry. intros Hcut.
  destruct (find entry "published") as [node|]; [|left; congruence].
  destruct (strptime (text node)) as [pd|]; simpl; [|discriminate].
  destruct (dt_ge pd later) eqn:Hge; [|left; congruence].
  rewrite (dt_ge_trans _ _ _ Hge Hcut). intros H H'. right. congruence.
Qed.

Lemma retained_wider later earlier entries :
  dt_ge later earlier = true ->
  Forall (fun e => exists r, process_entry later e = Ok r) entries ->
  Forall (fun e => exists r, process_entry earlier e = Ok r) entries ->
  flat_map (retained later) entries
  `sublist_of` flat_map (retained earlier) entries.
Proof.
  intros Hcut. induction entries as [|en es IH]; intros Hl He; simpl.
  - constructor.
  - inversion Hl as [|? ? [r Hr] Hl']; inversion He as [|? ? [r' Hr'] He'];
      subst.
    apply sublist_app; [|apply IH; assumption].
    unfold retained. rewrite Hr, Hr'.
    destruct (process_entry_wider _ _ _ _ _ Hcut Hr Hr') as [-> | ->].
    + apply sublist_nil_l.
    + reflexivity.
Qed.

(** X7.  Of two fetches of the same feed that both return, the one whose
    cutoff is later returns a sublist of the other's records (same records,
    same order, some left out): narrowing the window only removes
    records. *)
Theorem narrower_window_fewer_records
    w w' query query' days days' resp root later earlier
    trace trace' papers papers' :
  http w = Ok resp -> http w' = Ok resp -> status_code resp = 200 ->
  content resp = WellFormed root ->
  minus_days (now_cutoff w) days = Ok later ->
  minus_days (now_cutoff w') days' = Ok earlier ->
  dt_ge later earlier = true ->
  fetch_arxiv_papers w query days = (trace, Ok papers) ->
  fetch_arxiv_papers w' query' days' = (trace', Ok papers') ->
  papers `sublist_of` papers'.
Proof.
  intros Hhttp Hhttp' Hstatus Hbody Hlater Hearlier Hcut H H'.
  apply (fetch_returns _ _ _ _ _ _ _ _ Hhttp Hstatus Hbody Hlater) in H.
  apply (fetch_returns _ _ _ _ _ _ _ _ Hhttp' Hstatus Hbody Hearlier) in H'.
  apply fetch_loop_Ok in H as [-> Hall]. apply fetch_loop_Ok in H' as [-> Hall'].
  simpl. apply retained_wider; assumption.
Qed.

(** The sample feed with windows of 7 and of 14 days. *)
Lemma narrower_window_fewer_records_witness :
  sample_papers
  `sublist_of` sample_papers
               ++ [sample_paper "http://arxiv.org/abs/4" "2024-03-08";
                   sample_paper "http://arxiv.org/abs/5" "2024-03-05"].
Proof.
  apply (narrower_window_fewer_records
           (sample_world (Ok (mkResponse 200 (WellFormed sample_feed))) ∅)
           (sample_world (Ok (mkResponse 200 (WellFormed sample_feed))) ∅)
           SEARCH_QUERY SEARCH_QUERY 7 14
           (mkResponse 200 (WellFormed sample_feed)) sample_feed
           sample_cutoff (mkDatetime 2024 3 1 12 0 0 0)
           [HttpGet base_url (query_params SEARCH_QUERY)]
           [HttpGet base_url (query_params SEARCH_QUERY)]);
    vm_compute; reflexivity.
Defined.

(** * Further properties of the coordinator *)

(** The run of [main], step by step. *)
Lemma main_run w :
  main w
  = match fetch_arxiv_papers w SEARCH_QUERY 7 with
    | (t, Raise e) => (Print starting_message :: t, Raise e)
    | (t, Ok papers) =>
        match format_email_body (now_report w) papers with
        | Raise e =>
            (Print starting_message :: t ++ [Print (found_message papers)],
             Raise e)
        | Ok doc =>
            match disk_error w with
            | Some e =>
                (Print starting_message :: t ++ [Print (found_message papers)],
                 Raise e)
            | None =>
                match py_int (default (lit "587") (getenv w "SMTP_PORT")) with
                | Raise e =>
                    (Print starting_message
                     :: t ++ [Print (found_message papers);
                              FileWrite (output_file w) doc;
                              Print (report_message w)],
                     Raise e)
                | Ok port =>
                    (Print starting_message
                     :: t ++ [Print (found_message papers);
                              FileWrite (output_file w) doc;
                              Print (report_message w)]
                          ++ (if falsy (getenv w "SMTP_USER")
                                 || falsy (getenv w "SMTP_PASS")
                              then [Print skipped_message]
                              else delivery w port doc),
                     Ok tt)
                end
            end
        end
    end.
Proof.
  unfold main, write_file, emit, lift, mbind, IO_bind.
  destruct (fetch_arxiv_papers w SEARCH_QUERY 7) as [t [papers|e]];
    cbv beta iota zeta; [|reflexivity].
  destruct (format_email_body (now_report w) papers) as [doc|e];
    cbv beta iota zeta; [|reflexivity].
  destruct (disk_error w) as [e|]; cbv beta iota zeta; [reflexivity|].
  destruct (py_int (default (lit "587") (getenv w "SMTP_PORT"))) as [port|e];
    cbv beta iota zeta; [|reflexivity].
  destruct (falsy (getenv w "SMTP_USER") || falsy (getenv w "SMTP_PASS"));
    reflexivity.
Qed.

(** X8.  [main] returns normally exactly when the fetch returns a list, the
    rendering returns a document, the report file can be written and the
    text of [SMTP_PORT] (or its default) converts to an integer: a failure
    of the mail transport never ends the run with an exception, every other
    failure does. *)
Theorem main_returns_iff w :
  snd (main w) = Ok tt
  <-> exists trace papers doc port,
        fetch_arxiv_papers w SEARCH_QUERY 7 = (trace, Ok papers) /\
        format_email_body (now_report w) papers = Ok doc /\
        disk_error w = None /\
        py_int (default (lit "587") (getenv w "SMTP_PORT")) = Ok port.
Proof.
  rewrite main_run. split.
  - destruct (fetch_arxiv_papers w SEARCH_QUERY 7) as [t [papers|e]];
      [|discriminate].
    destruct (format_email_body (now_report w) papers) as [doc|e] eqn:Hdoc;
      [|discriminate].
    destruct (disk_error w) as [e|]; [discriminate|].
    destruct (py_int (default (lit "587") (getenv w "SMTP_PORT")))
      as [port|e]; [|discriminate].
    intros _. exists t, papers, doc, port. auto.
  - intros (t & papers & doc & port & -> & -> & -> & ->). reflexivity.
Qed.

(** The calls of the mail transport, by the call that fails. *)
Lemma delivery_run w port doc :
  delivery w port doc
  = let host := default (lit "smtp.gmail.com") (getenv w "SMTP_SERVER") in
    let user := format_value (getenv w "SMTP_USER") in
    let password := format_value (getenv w "SMTP_PASS") in
    let send :=
      SmtpSend user EMAIL_RECIPIENT (email_subject (now_subject w)) doc in
    let failed message := Print (lit "Erro ao enviar e-mail: " ++ message) in
    match smtp_error w with
    | None =>
        [SmtpConnect host port; SmtpStartTls; SmtpLogin user password; send;
         SmtpQuit; Print success_message]
    | Some (Connect, message) => [SmtpConnect host port; failed message]
    | Some (StartTls, message) =>
        [SmtpConnect host port; SmtpStartTls; failed message]
    | Some (Login, message) =>
        [SmtpConnect host port; SmtpStartTls; SmtpLogin user password;
         failed message]
    | Some (SendMessage, message) =>
        [SmtpConnect host port; SmtpStartTls; SmtpLogin user password; send;
         failed message]
    | Some (Quit, message) =>
        [SmtpConnect host port; SmtpStartTls; SmtpLogin user password; send;
         SmtpQuit; failed message]
    end.
Proof.
  unfold delivery. cbv zeta. cbn [smtp_session].
  destruct (smtp_error w) as [[[] message]|]; reflexivity.
Qed.

Lemma no_smtp_elem l e :
  Forall (fun x => is_smtp x = false) l -> e ∈ l -> is_smtp e = true -> False.
Proof.
  intros Hall Hin He. rewrite Forall_forall in Hall.
  rewrite (Hall _ Hin) in He. discriminate.
Qed.

(** An event of the mail transport found after a prefix that has none lies
    in what follows the prefix. *)
Lemma split_after_prefix pre : forall post l1 e l2,
  Forall (fun x => is_smtp x = false) pre -> is_smtp e = true ->
  pre ++ post = l1 ++ e :: l2 ->
  exists l1', l1 = pre ++ l1' /\ post = l1' ++ e :: l2.
Proof.
  induction pre as [|x pre IH]; intros post l1 e l2 Hpre He H.
  - exists l1. split; [reflexivity | exact H].
  - inversion Hpre as [|? ? Hx Hpre']; subst.
    destruct l1 as [|y l1]; simpl in H.
    + inversion H; subst. congruence.
    + inversion H; subst.
      destruct (IH _ _ _ _ Hpre' He H2) as (l1' & -> & ->).
      exists l1'. split; reflexivity.
Qed.

(** The events of a run: a part without event of the mail transport,
    followed by nothing, by the diagnostic of the skipped delivery, or, in a
    run that wrote the report file and found both credentials, by the calls
    of the mail transport. *)
Lemma main_shape w :
  exists pre post,
    fst (main w) = pre ++ post /\
    Forall (fun x => is_smtp x = false) pre /\
    (post = [] /\ (exists e, snd (main w) = Raise e) \/
     post = [Print skipped_message] /\
     falsy (getenv w "SMTP_USER") || falsy (getenv w "SMTP_PASS") = true /\
     snd (main w) = Ok tt \/
     exists trace papers doc port,
       fetch_arxiv_papers w SEARCH_QUERY 7 = (trace, Ok papers) /\
       format_email_body (now_report w) papers = Ok doc /\
       py_int (default (lit "587") (getenv w "SMTP_PORT")) = Ok port /\
       falsy (getenv w "SMTP_USER") || falsy (getenv w "SMTP_PASS") = false /\
       pre = Print starting_message
             :: trace ++ [Print (found_message papers);
                          FileWrite (output_file w) doc;
                          Print (report_message w)] /\
       post = delivery w port doc).
Proof.
  rewrite main_run. pose proof (fetch_no_smtp w SEARCH_QUERY 7) as Hfetch.
  destruct (fetch_arxiv_papers w SEARCH_QUERY 7) as [t [papers|e]] eqn:Hf;
    simpl in Hfetch.
  2: { exists (Print starting_message :: t), []. rewrite app_nil_r.
       split; [reflexivity|]. split; [constructor; auto|]. left. eauto. }
  assert (Forall (fun x => is_smtp x = false)
            (Print starting_message :: t ++ [Print (found_message papers)]))
    as Hpre1.
  { constructor; [reflexivity|]. apply Forall_app. split; [exact Hfetch|].
    repeat constructor. }
  destruct (format_email_body (now_report w) papers) as [doc|e] eqn:Hdoc.
  2: { eexists _, []. rewrite app_nil_r.
       split; [reflexivity|]. split; [eassumption|]. left. eauto. }
  destruct (disk_error w) as [e|].
  { eexists _, []. rewrite app_nil_r.
       split; [reflexivity|]. split; [eassumption|]. left. eauto. }
  assert (Forall (fun x => is_smtp x = false)
            (Print starting_message
             :: t ++ [Print (found_message papers);
                      FileWrite (output_file w) doc;
                      Print (report_message w)]))
    as Hpre2.
  { constructor; [reflexivity|]. apply Forall_app. split; [exact Hfetch|].
    repeat constructor. }
  destruct (py_int (default (lit "587") (getenv w "SMTP_PORT")))
    as [port|e] eqn:Hport.
  2: { eexists _, []. rewrite app_nil_r.
       split; [reflexivity|]. split; [eassumption|]. left. eauto. }
  destruct (falsy (getenv w "SMTP_USER") || falsy (getenv w "SMTP_PASS"))
    eqn:Hcred; cbn [fst snd].
  - exists (Print starting_message
            :: t ++ [Print (found_message papers);
                     FileWrite (output_file w) doc;
                     Print (report_message w)]),
      [Print skipped_message].
    split; [|split; [exact Hpre2|right; left; auto]].
    simpl. rewrite <- app_assoc. reflexivity.
  - exists (Print starting_message
            :: t ++ [Print (found_message papers);
                     FileWrite (output_file w) doc;
                     Print (report_message w)]),
      (delivery w port doc).
    split; [|split; [exact Hpre2|]].
    + simpl. rewrite <- app_assoc. reflexivity.
    + right; right. exists t, papers, doc, port. auto 10.
Qed.

(** X9.  Every event of the mail transport in a run comes after the
    writing of the report file: no connection is attempted before the
    rendered document is on disk. *)
Theorem report_written_before_mail w l1 e l2 :
  fst (main w) = l1 ++ e :: l2 -> is_smtp e = true ->
  exists doc, FileWrite (output_file w) doc ∈ l1.
Proof.
  intros Htrace He. destruct (main_shape w) as (pre & post & Hmain & Hpre & H).
  rewrite Hmain in Htrace.
  destruct (split_after_prefix _ _ _ _ _ Hpre He Htrace) as (l1' & -> & Hpost).
  destruct H as [(-> & _) | [(-> & _) | (t & papers & doc & port & _ & _ & _ & _ & -> & _)]].
  - destruct l1'; discriminate.
  - destruct l1' as [|x l1']; simpl in Hpost.
    + inversion Hpost; subst. discriminate.
    + inversion Hpost. destruct l1'; discriminate.
  - exists doc. apply elem_of_app. left. apply list_elem_of_further.
    apply elem_of_app. right. apply list_elem_of_further, list_elem_of_here.
Qed.

(** The sample feed with both credentials: the connection is the sixth
    event of the run. *)
Lemma report_written_before_mail_witness :
  exists doc,
    FileWrite (output_file (delivery_world None)) doc
    ∈ take 5 (fst (main (delivery_world None))).
Proof.
  apply (report_written_before_mail (delivery_world None)
           (take 5 (fst (main (delivery_world None))))
           (SmtpConnect (lit "smtp.gmail.com") 587)
           (drop 6 (fst (main (delivery_world None))))).
  - vm_compute; reflexivity.
  - reflexivity.
Defined.

Lemma falsy_false user pass :
  falsy user || falsy pass = false
  <-> exists u p, user = Some u /\ u <> [] /\ pass = Some p /\ p <> [].
Proof.
  split.
  - destruct user as [[|c u]|], pass as [[|d p]|]; try discriminate.
    intros _. exists (c :: u), (d :: p). repeat split; discriminate.
  - intros (u & p & -> & Hu & -> & Hp).
    destruct u; [congruence|]. destruct p; [congruence|]. reflexivity.
Qed.

Lemma delivery_starts w port doc :
  exists rest,
    delivery w port doc
    = SmtpConnect (default (lit "smtp.gmail.com") (getenv w "SMTP_SERVER")) port
      :: rest.
Proof. rewrite delivery_run. cbv zeta. destruct (smtp_error w) as [[[] m]|]; eauto. Qed.

(** X10.  In a run that returns, the mail transport is used exactly when
    the username and the secret are both set and not empty (an empty value
    counts as a missing one); the first call of the mail transport is then
    the connection to the host of [SMTP_SERVER], "smtp.gmail.com" when
    unset, at the converted port: no event of the mail transport comes
    before it. *)
Theorem mail_iff_credentials w :
  snd (main w) = Ok tt ->
  ((exists e, e ∈ fst (main w) /\ is_smtp e = true)
   <-> exists u p, getenv w "SMTP_USER" = Some u /\ u <> [] /\
                   getenv w "SMTP_PASS" = Some p /\ p <> []) /\
  ((exists e, e ∈ fst (main w) /\ is_smtp e = true) ->
   exists port before rest,
     py_int (default (lit "587") (getenv w "SMTP_PORT")) = Ok port /\
     fst (main w)
     = before
       ++ SmtpConnect (default (lit "smtp.gmail.com") (getenv w "SMTP_SERVER"))
                      port
       :: rest /\
     Forall (fun x => is_smtp x = false) before).
Proof.
  intros Hret. destruct (main_shape w) as (pre & post & Hmain & Hpre & H).
  rewrite Hmain.
  assert (forall e, e ∈ pre ++ post -> is_smtp e = true -> e ∈ post) as Hpost.
  { intros e Hin He. apply elem_of_app in Hin as [Hin|Hin]; [|exact Hin].
    destruct (no_smtp_elem _ _ Hpre Hin He). }
  destruct H as [(_ & e & He) | [(-> & Hcred & _) | H]].
  - congruence.
  - assert ((exists e, e ∈ pre ++ [Print skipped_message] /\ is_smtp e = true)
            -> False) as Hno.
    { intros (e & Hin & He). apply Hpost in Hin; [|exact He].
      apply list_elem_of_singleton in Hin as ->. discriminate. }
    split; [split|]; [| |intros Hm; destruct (Hno Hm)].
    + intros Hm. destruct (Hno Hm).
    + intros Hboth. apply falsy_false in Hboth. congruence.
  - destruct H as (t & papers & doc & port & _ & _ & Hport & Hcred & _ & ->).
    destruct (delivery_starts w port doc) as [rest Hrest].
    split; [split|].
    + intros _. apply falsy_false, Hcred.
    + intros _.
      exists (SmtpConnect
                (default (lit "smtp.gmail.com") (getenv w "SMTP_SERVER")) port).
      split; [|reflexivity].
      apply elem_of_app. right. rewrite Hrest. apply list_elem_of_here.
    + intros _. exists port, pre, rest. rewrite Hrest. auto.
Qed.

(** The sample run with both credentials: five events, none of the mail
    transport, come before the connection to smtp.gmail.com at 587. *)
Lemma mail_iff_credentials_witness :
  ((exists e, e ∈ fst (main (delivery_world None)) /\ is_smtp e = true)
   <-> exists u p,
         getenv (delivery_world None) "SMTP_USER" = Some u /\ u <> [] /\
         getenv (delivery_world None) "SMTP_PASS" = Some p /\ p <> []) /\
  ((exists e, e ∈ fst (main (delivery_world None)) /\ is_smtp e = true) ->
   exists port before rest,
     py_int (default (lit "587") (getenv (delivery_world None) "SMTP_PORT"))
     = Ok port /\
     fst (main (delivery_world None))
     = before
       ++ SmtpConnect
            (default (lit "smtp.gmail.com")
                     (getenv (delivery_world None) "SMTP_SERVER")) port
       :: rest /\
     Forall (fun x => is_smtp x = false) before).
Proof. apply (mail_iff_credentials (delivery_world None)). vm_compute; reflexivity. Defined.

(** X11.  A login is attempted only with the username and the secret of the
    environment, only after the call that upgrades the connection
    ([starttls]), and in no run where the connection or the upgrade
    failed. *)
Theorem login_only_after_starttls w l1 user password l2 :
  fst (main w) = l1 ++ SmtpLogin user password :: l2 ->
  SmtpStartTls ∈ l1 /\
  getenv w "SMTP_USER" = Some user /\ getenv w "SMTP_PASS" = Some password /\
  forall step message,
    smtp_error w = Some (step, message) -> step <> Connect /\ step <> StartTls.
Proof.
  intros Htrace. destruct (main_shape w) as (pre & post & Hmain & Hpre & H).
  rewrite Hmain in Htrace.
  destruct (split_after_prefix pre post l1 (SmtpLogin user password) l2
              Hpre eq_refl Htrace) as (l1' & -> & Hpost).
  destruct H as [(-> & _) | [(-> & _) | H]].
  - destruct l1'; discriminate.
  - destruct l1' as [|x l1']; simpl in Hpost.
    + inversion Hpost.
    + inversion Hpost. destruct l1'; discriminate.
  - destruct H as (t & papers & doc & port & _ & _ & _ & Hcred & _ & ->).
    apply falsy_false in Hcred as (u & p & Hu & _ & Hp & _).
    rewrite delivery_run, Hu, Hp in Hpost. cbv zeta in Hpost.
    cbn [format_value] in Hpost.
    assert (SmtpStartTls ∈ l1' /\ u = user /\ p = password /\
            forall step message,
              smtp_error w = Some (step, message) ->
              step <> Connect /\ step <> StartTls) as (Htls & -> & -> & Herr).
    { revert Hpost. destruct (smtp_error w) as [[[] m]|]; intros Hpost;
        repeat (destruct l1' as [|? l1']; cbn [app] in Hpost;
                [inversion Hpost; subst
                |inversion Hpost as [[Hhead Htail]]; clear Hpost;
                 rename Htail into Hpost; subst]);
        (split; [apply list_elem_of_further, list_elem_of_here|]);
        (split; [reflexivity|]); (split; [reflexivity|]);
        intros step message Heq; inversion Heq; split; discriminate. }
    split; [apply elem_of_app; right; exact Htls|]. auto.
Qed.

(** The sample run with both credentials: the login is the eighth event. *)
Lemma login_only_after_starttls_witness :
  SmtpStartTls ∈ take 7 (fst (main (delivery_world None))) /\
  getenv (delivery_world None) "SMTP_USER" = Some (lit "reports") /\
  getenv (delivery_world None) "SMTP_PASS" = Some (lit "s3cret") /\
  forall step message,
    smtp_error (delivery_world None) = Some (step, message) ->
    step <> Connect /\ step <> StartTls.
Proof.
  apply (login_only_after_starttls (delivery_world None)
           (take 7 (fst (main (delivery_world None))))
           (lit "reports") (lit "s3cret")
           (drop 8 (fst (main (delivery_world None))))).
  vm_compute; reflexivity.
Defined.

(** X12.  Whatever is sent by mail is the document that was written to the
    report file in the same run, rendered from the list the fetch returned;
    it goes to the fixed recipient, under the subject line of the day. *)
Theorem mail_body_is_report w sender recipient subject body :
  SmtpSend sender recipient subject body ∈ fst (main w) ->
  recipient = EMAIL_RECIPIENT /\
  subject = email_subject (now_subject w) /\
  FileWrite (output_file w) body ∈ fst (main w) /\
  exists trace papers,
    fetch_arxiv_papers w SEARCH_QUERY 7 = (trace, Ok papers) /\
    format_email_body (now_report w) papers = Ok body.
Proof.
  intros Hin. destruct (main_shape w) as (pre & post & Hmain & Hpre & H).
  rewrite Hmain in *.
  apply elem_of_app in Hin as [Hin|Hin];
    [destruct (no_smtp_elem _ _ Hpre Hin eq_refl)|].
  destruct H as [(-> & _) | [(-> & _) | H]].
  - apply elem_of_nil in Hin as [].
  - apply list_elem_of_singleton in Hin. discriminate.
  - destruct H as (t & papers & doc & port & Hfetch & Hdoc & _ & _ & -> & ->).
    assert (recipient = EMAIL_RECIPIENT /\
            subject = email_subject (now_subject w) /\ body = doc)
      as (-> & -> & ->).
    { rewrite delivery_run in Hin. cbv zeta in Hin. revert Hin.
      destruct (smtp_error w) as [[[] m]|]; intros Hin;
        repeat (apply elem_of_cons in Hin as [Heq|Hin];
                [try discriminate Heq; inversion Heq; subst; auto|]);
        apply elem_of_nil in Hin as []. }
    split; [reflexivity|]. split; [reflexivity|]. split; [|eauto].
    apply elem_of_app. left. apply list_elem_of_further, elem_of_app. right.
    apply list_elem_of_further, list_elem_of_here.
Qed.

Lemma mail_body_is_report_witness :
  EMAIL_RECIPIENT = EMAIL_RECIPIENT /\
  email_subject sample_now = email_subject (now_subject (delivery_world None)) /\
  FileWrite (output_file (delivery_world None))
            (rendered sample_now sample_papers)
  ∈ fst (main (delivery_world None)) /\
  exists trace papers,
    fetch_arxiv_papers (delivery_world None) SEARCH_QUERY 7
    = (trace, Ok papers) /\
    format_email_body (now_report (delivery_world None)) papers
    = Ok (rendered sample_now sample_papers).
Proof.
  apply (mail_body_is_report (delivery_world None) (lit "reports")).
  vm_compute. do 8 apply list_elem_of_further. apply list_elem_of_here.
Defined.

Lemma fetch_never_prints_success w query days :
  Forall (fun x => x <> Print success_message)
         (fst (fetch_arxiv_papers w query days)).
Proof.
  unfold fetch_arxiv_papers.
  destruct (minus_days (now_limit w) days); cbn; [|constructor].
  destruct (http w) as [resp|]; cbn;
    [|repeat constructor; discriminate].
  destruct (bool_decide (status_code resp ≠ 200)); cbn.
  { constructor; [discriminate|]. constructor; [|constructor].
    intros H. injection H as H. vm_compute in H. discriminate H. }
  destruct (fromstring (content resp)) as [root|]; cbn;
    [|repeat constructor; discriminate].
  destruct (minus_days (now_cutoff w) days) as [cutoff|]; cbn;
    [|repeat constructor; discriminate].
  destruct (fetch_loop cutoff (findall root "entry") []);
    repeat constructor; discriminate.
Qed.

Lemma not_success_start : Print starting_message <> Print success_message.
Proof. intros H. injection H as H. vm_compute in H. discriminate H. Qed.

Lemma not_success_found papers :
  Print (found_message papers) <> Print success_message.
Proof. intros H. injection H as H. vm_compute in H. discriminate H. Qed.

Lemma not_success_report w : Print (report_message w) <> Print success_message.
Proof. intros H. injection H as H. vm_compute in H. discriminate H. Qed.

Lemma not_success_skipped : Print skipped_message <> Print success_message.
Proof. intros H. injection H as H. vm_compute in H. discriminate H. Qed.

Lemma not_success_failed message :
  Print (lit "Erro ao enviar e-mail: " ++ message) <> Print success_message.
Proof. intros H. injection H as H. vm_compute in H. discriminate H. Qed.

Lemma success_in_delivery w port doc :
  Print success_message ∈ delivery w port doc <-> smtp_error w = None.
Proof.
  rewrite delivery_run. cbv zeta.
  destruct (smtp_error w) as [[[] m]|]; split; intros H; try discriminate H;
    try (do 5 apply list_elem_of_further; apply list_elem_of_here);
    try reflexivity; exfalso;
    repeat (apply elem_of_cons in H as [H|H];
            [try discriminate H; symmetry in H;
             apply not_success_failed in H; exact H|]);
    apply elem_of_nil in H; exact H.
Qed.

(** X13.  The line that reports the mail as sent is printed exactly in the
    runs that return, found both credentials, and in which none of the
    calls of the mail transport failed. *)
Theorem success_line_iff_sent w :
  Print success_message ∈ fst (main w)
  <-> snd (main w) = Ok tt /\
      falsy (getenv w "SMTP_USER") || falsy (getenv w "SMTP_PASS") = false /\
      smtp_error w = None.
Proof.
  rewrite main_run.
  pose proof (fetch_never_prints_success w SEARCH_QUERY 7) as Hfetch.
  destruct (fetch_arxiv_papers w SEARCH_QUERY 7) as [t [papers|e]];
    simpl in Hfetch.
  2: { split; [|intros [H _]; discriminate H]. intros H. exfalso.
       apply elem_of_cons in H as [H|H];
         [symmetry in H; exact (not_success_start H)|].
       rewrite Forall_forall in Hfetch. exact (Hfetch _ H eq_refl). }
  assert (forall rest,
            Print success_message
            ∈ Print starting_message :: t ++ Print (found_message papers) :: rest
            -> Print success_message ∈ rest) as Hpre.
  { intros rest H. apply elem_of_cons in H as [H|H];
      [symmetry in H; destruct (not_success_start H)|].
    apply elem_of_app in H as [H|H].
    { rewrite Forall_forall in Hfetch. destruct (Hfetch _ H eq_refl). }
    apply elem_of_cons in H as [H|H];
      [symmetry in H; destruct (not_success_found _ H) | exact H]. }
  destruct (format_email_body (now_report w) papers) as [doc|e].
  2: { split; [|intros [H _]; discriminate H]. intros H. apply Hpre in H.
       apply elem_of_nil in H as []. }
  destruct (disk_error w) as [e|].
  { split; [|intros [H _]; discriminate H]. intros H. apply Hpre in H.
    apply elem_of_nil in H as []. }
  assert (forall rest,
            Print success_message
            ∈ Print starting_message
              :: t ++ [Print (found_message papers);
                       FileWrite (output_file w) doc;
                       Print (report_message w)] ++ rest
            <-> Print success_message ∈ rest) as Hpre'.
  { intros rest. split.
    - intros H. apply Hpre in H.
      apply elem_of_cons in H as [H|H]; [discriminate H|].
      apply elem_of_cons in H as [H|H];
        [symmetry in H; destruct (not_success_report _ H) | exact H].
    - intros H. apply list_elem_of_further, elem_of_app. right.
      do 3 apply list_elem_of_further. exact H. }
  destruct (py_int (default (lit "587") (getenv w "SMTP_PORT"))) as [port|e].
  2: { split; [|intros [H _]; discriminate H]. intros H.
       apply (Hpre' []) in H. apply elem_of_nil in H as []. }
  cbn [fst snd]. rewrite Hpre'.
  destruct (falsy (getenv w "SMTP_USER") || falsy (getenv w "SMTP_PASS")).
  - split; [|intros (_ & H & _); discriminate H]. intros H.
    apply list_elem_of_singleton in H. symmetry in H.
    destruct (not_success_skipped H).
  - rewrite success_in_delivery. split; [auto | intros (_ & _ & H); exact H].
Qed.

Lemma fetch_no_file_write w query days :
  Forall (fun x => is_file_write x = false)
         (fst (fetch_arxiv_papers w query days)).
Proof.
  unfold fetch_arxiv_papers.
  destruct (minus_days (now_limit w) days); cbn; [|constructor].
  destruct (http w) as [resp|]; cbn; [|repeat constructor].
  destruct (bool_decide (status_code resp ≠ 200)); cbn; [repeat constructor|].
  destruct (fromstring (content resp)) as [root|]; cbn; [|repeat constructor].
  destruct (minus_days (now_cutoff w) days) as [cutoff|]; cbn;
    [|repeat constructor].
  destruct (fetch_loop cutoff (findall root "entry") []); repeat constructor.
Qed.

Lemma delivery_no_file_write w port doc :
  Forall (fun x => is_file_write x = false) (delivery w port doc).
Proof.
  rewrite delivery_run. cbv zeta.
  destruct (smtp_error w) as [[[] m]|]; repeat constructor.
Qed.

Lemma no_file_write_elem l path data :
  Forall (fun x => is_file_write x = false) l -> FileWrite path data ∈ l -> False.
Proof.
  intros Hall Hin. rewrite Forall_forall in Hall.
  specialize (Hall _ Hin). discriminate.
Qed.

(** X14.  A run writes a file exactly when the fetch returns a list, the
    rendering returns a document and the disk allows it; the only file it
    ever writes is the report of the day, and its content is the rendering
    of the list the fetch returned. *)
Theorem report_written_iff w path data :
  FileWrite path data ∈ fst (main w)
  <-> path = output_file w /\ disk_error w = None /\
      exists trace papers,
        fetch_arxiv_papers w SEARCH_QUERY 7 = (trace, Ok papers) /\
        format_email_body (now_report w) papers = Ok data.
Proof.
  rewrite main_run.
  pose proof (fetch_no_file_write w SEARCH_QUERY 7) as Hfetch.
  destruct (fetch_arxiv_papers w SEARCH_QUERY 7) as [t [papers|e]] eqn:Hf;
    simpl in Hfetch.
  2: { split; [|intros (_ & _ & ? & ? & H & _); discriminate H].
       intros H. exfalso. apply elem_of_cons in H as [H|H]; [discriminate H|].
       exact (no_file_write_elem _ _ _ Hfetch H). }
  assert (forall rest,
            FileWrite path data
            ∈ Print starting_message :: t ++ Print (found_message papers) :: rest
            -> FileWrite path data ∈ rest) as Hpre.
  { intros rest H. apply elem_of_cons in H as [H|H]; [discriminate H|].
    apply elem_of_app in H as [H|H];
      [destruct (no_file_write_elem _ _ _ Hfetch H)|].
    apply elem_of_cons in H as [H|H]; [discriminate H | exact H]. }
  destruct (format_email_body (now_report w) papers) as [doc|e] eqn:Hdoc.
  2: { split.
       - intros H. apply Hpre in H. apply elem_of_nil in H as [].
       - intros (_ & _ & t' & papers' & H & H'). exfalso.
         assert (papers' = papers) as -> by congruence. congruence. }
  destruct (disk_error w) as [e|].
  { split; [|intros (_ & H & _); discriminate H].
    intros H. apply Hpre in H. apply elem_of_nil in H as []. }
  assert (forall rest,
            Forall (fun x => is_file_write x = false) rest ->
            (FileWrite path data
             ∈ Print starting_message
               :: t ++ [Print (found_message papers);
                        FileWrite (output_file w) doc;
                        Print (report_message w)] ++ rest
             <-> path = output_file w /\ data = doc)) as Hpre'.
  { intros rest Hrest. split.
    - intros H. apply Hpre in H. apply elem_of_cons in H as [H|H].
      { inversion H. auto. }
      apply elem_of_cons in H as [H|H]; [discriminate H|].
      destruct (no_file_write_elem _ _ _ Hrest H).
    - intros [-> ->]. apply list_elem_of_further, elem_of_app. right.
      apply list_elem_of_further, list_elem_of_here. }
  assert (path = output_file w /\ data = doc
          <-> path = output_file w /\ None = (None : option exn) /\
              exists trace papers0,
                (t, Ok papers) = (trace, Ok papers0) /\
                format_email_body (now_report w) papers0 = Ok data) as Hiff.
  { split.
    - intros [-> ->]. split; [reflexivity|]. split; [reflexivity|]. eauto.
    - intros (-> & _ & t' & papers' & H & H'). split; [reflexivity|].
      assert (papers' = papers) as -> by congruence. congruence. }
  destruct (py_int (default (lit "587") (getenv w "SMTP_PORT"))) as [port|e];
    cbn [fst].
  - rewrite <- Hiff. apply Hpre'.
    destruct (falsy (getenv w "SMTP_USER") || falsy (getenv w "SMTP_PASS"));
      [repeat constructor | apply delivery_no_file_write].
  - rewrite <- Hiff. rewrite <- (Hpre' []) by constructor.
    rewrite app_nil_r. reflexivity.
Qed.

(** X15.  A response with a status other than 200 is reported as an empty
    result: the run prints the diagnostic with the status, counts 0
    articles, and writes the "no new papers" sentence to the report file
    (when the date arithmetic does not overflow and the disk allows). *)
Theorem error_status_reported_as_no_papers w limit resp :
  minus_days (now_limit w) 7 = Ok limit ->
  http w = Ok resp -> status_code resp <> 200 -> disk_error w = None ->
  exists rest,
    fst (main w)
    = [Print starting_message;
       HttpGet base_url (query_params SEARCH_QUERY);
       Print (lit "Erro ao acessar ArXiv API: " ++ decimal (status_code resp));
       Print (found_message []);
       FileWrite (output_file w) no_papers;
       Print (report_message w)] ++ rest.
Proof.
  intros Hlimit Hhttp Hstatus Hdisk. rewrite main_run.
  rewrite (fetch_not_200 _ _ _ _ _ Hlimit Hhttp Hstatus).
  cbn [format_email_body]. rewrite Hdisk.
  destruct (py_int (default (lit "587") (getenv w "SMTP_PORT"))) as [port|e];
    cbn [fst]; eexists; reflexivity || (rewrite app_nil_r; reflexivity).
Qed.

Lemma error_status_reported_as_no_papers_witness :
  exists rest,
    fst (main unavailable_world)
    = [Print starting_message;
       HttpGet base_url (query_params SEARCH_QUERY);
       Print (lit "Erro ao acessar ArXiv API: "
              ++ decimal (status_code (mkResponse 503 Malformed)));
       Print (found_message []);
       FileWrite (output_file unavailable_world) no_papers;
       Print (report_message unavailable_world)] ++ rest.
Proof.
  apply (error_status_reported_as_no_papers unavailable_world sample_cutoff
           (mkResponse 503 Malformed)).
  - vm_compute; reflexivity.
  - reflexivity.
  - discriminate.
  - reflexivity.
Defined.
